(** * A research agent built on a two-node LangGraph workflow (agent.py)

    The development embeds [agent.py]: the message types, the three graph
    callbacks ([llm_agent_node], [tool_node], [route_agent]), the workflow
    wiring, and the two entry points [run_research_agent] and
    [run_research_agent_verbose].

    The language model, the two retrieval tools and the prebuilt [ToolNode]
    are external collaborators: they are fields of an environment record and
    act on an abstract external state.  Python exceptions are an explicit
    [Raise] result; [print] appends to a [stdout] log. *)

From Stdlib Require Import List String Ascii Arith Bool Lia DecimalString.
Import ListNotations.
Open Scope string_scope.
Open Scope list_scope.

(** String concatenation ([+] on [str], and f-string interpolation). *)
Infix "+++" := String.append (right associativity, at level 60).

(** ** Messages *)

(** A tool call as LangChain hands it over: a dict with [name], [args], [id]. *)
Record ToolCall : Type := mkToolCall {
  tc_name : string;
  tc_args : list (string * string);
  tc_id : string
}.

(** The three message classes the program imports.  Only [AIMessage] carries
    the attribute [tool_calls]. *)
Inductive BaseMessage : Type :=
| HumanMessage (content : string)
| AIMessage (content : string) (tool_calls : list ToolCall)
| ToolMessage (content : string) (tool_call_id : string).

Definition content (m : BaseMessage) : string :=
  match m with
  | HumanMessage c => c
  | AIMessage c _ => c
  | ToolMessage c _ => c
  end.

(** [AgentState] has the single key [messages]. *)
Definition AgentState : Type := list BaseMessage.

(** The reducer annotated on [messages]: [lambda x, y: x + y]. *)
Definition reducer (x y : list BaseMessage) : list BaseMessage := x ++ y.

(** ** Exceptions and printed output *)

(** The exceptions of the development are of class [Exception]: the two
    that reading the state can raise, the [GraphRecursionError] of the graph
    runtime, which carries the runtime's text, and [Exception msg] for what
    a collaborator raises.  [KeyboardInterrupt] and [SystemExit], which an
    [except Exception] clause lets through, are not part of the model: no
    collaborator raises them here. *)
Inductive exn : Type :=
| IndexError
| AttributeError (class_name : string)
| GraphRecursionError (text : string)
| Exception (msg : string).

(** [str(e)] as it is interpolated in the f-strings. *)
Definition str_exn (e : exn) : string :=
  match e with
  | IndexError => "list index out of range"
  | AttributeError class_name =>
      "'" +++ class_name +++ "' object has no attribute 'tool_calls'"
  | GraphRecursionError text => text
  | Exception msg => msg
  end.

Inductive result (A : Type) : Type :=
| Ok (a : A)
| Raise (e : exn).
Arguments Ok {A} a.
Arguments Raise {A} e.

Inductive node_id : Type :=
| N_llm_agent_node
| N_tool_node.

(** What [app.stream] yields: one dict per executed node, holding the node's
    update, and a closing entry under the key [__end__]. *)
Inductive chunk : Type :=
| NodeChunk (node : node_id) (update : list BaseMessage)
| EndChunk (final : AgentState).

(** One call of [print]: a line of text, or the dump of a streamed chunk. *)
Inductive printed : Type :=
| Line (s : string)
| ChunkDump (c : chunk).

Definition nl : string := String (ascii_of_nat 10) EmptyString.

Fixpoint string_times (s : string) (n : nat) : string :=
  match n with
  | O => EmptyString
  | S n' => s +++ string_times s n'
  end.

Definition str_nat (n : nat) : string := NilEmpty.string_of_uint (Nat.to_uint n).

(** [d.get(key, default)] on the argument dict. *)
Fixpoint dict_get (d : list (string * string)) (key default : string) : string :=
  match d with
  | [] => default
  | (k, v) :: d' => if k =? key then v else dict_get d' key default
  end.

(** ** External collaborators *)

(** [W] is the state of the outside world (the reasoning service and the
    retrieval back ends): every collaborator may read and change it, and may
    raise.  [llm_with_tools] returns the content and tool calls of the
    [AIMessage] it answers with; a tool returns [str(output)].
    [tool_node_fallback] stands for [ToolNode(tools).invoke(state)].
    [recursion_limit] is the recursion limit of the graph runtime, which
    raises [GraphRecursionError] when a run is not over within fewer node
    executions than the limit, and [recursion_error] is the text of that
    exception. *)
Record Env (W : Type) : Type := mkEnv {
  llm_with_tools : list BaseMessage -> W -> result (string * list ToolCall) * W;
  wikipedia_tool : ToolCall -> W -> result string * W;
  duckduckgo_tool : ToolCall -> W -> result string * W;
  tool_node_fallback : AgentState -> W -> result (list BaseMessage) * W;
  recursion_limit : nat;
  recursion_error : string
}.
Arguments llm_with_tools {W} _ _ _.
Arguments wikipedia_tool {W} _ _ _.
Arguments duckduckgo_tool {W} _ _ _.
Arguments tool_node_fallback {W} _ _ _.
Arguments recursion_limit {W} _.
Arguments recursion_error {W} _.

Record world (W : Type) : Type := mkWorld {
  ext : W;
  stdout : list printed
}.
Arguments mkWorld {W} _ _.
Arguments ext {W} _.
Arguments stdout {W} _.

(** ** The effect monad: state passing over [world], with exceptions *)

Definition M (W A : Type) : Type := world W -> result A * world W.

Definition ret {W A} (a : A) : M W A := fun w => (Ok a, w).

Definition raise {W A} (e : exn) : M W A := fun w => (Raise e, w).

Definition bind {W A B} (m : M W A) (k : A -> M W B) : M W B :=
  fun w =>
    match m w with
    | (Ok a, w') => k a w'
    | (Raise e, w') => (Raise e, w')
    end.

(** [try: body / except Exception as e: handler]: every exception of the
    model is of class [Exception], so the clause catches what [body]
    raises. *)
Definition try_except {W A} (body : M W A) (handler : exn -> M W A) : M W A :=
  fun w =>
    match body w with
    | (Ok a, w') => (Ok a, w')
    | (Raise e, w') => handler e w'
    end.

Definition print {W} (p : printed) : M W unit :=
  fun w => (Ok tt, mkWorld (ext w) (stdout w ++ [p])).

(** A collaborator's call, run on the external part of the world. *)
Definition call {W A} (f : W -> result A * W) : M W A :=
  fun w =>
    let (r, x) := f (ext w) in (r, mkWorld x (stdout w)).

Notation "x <- m ;; k" := (bind m (fun x => k))
  (at level 61, m at next level, right associativity).
Notation "m ;;; k" := (bind m (fun _ => k))
  (at level 61, right associativity).

(** [xs[-1]]: raises [IndexError] on the empty list. *)
Definition last_item {W} (xs : list BaseMessage) : M W BaseMessage :=
  match rev xs with
  | [] => raise IndexError
  | x :: _ => ret x
  end.

(** [m.tool_calls]: raises [AttributeError] unless [m] is an [AIMessage]. *)
Definition get_tool_calls {W} (m : BaseMessage) : M W (list ToolCall) :=
  match m with
  | AIMessage _ calls => ret calls
  | HumanMessage _ => raise (AttributeError "HumanMessage")
  | ToolMessage _ _ => raise (AttributeError "ToolMessage")
  end.

Definition system_prompt : string :=
"You are a research assistant with access to search tools. 

Available tools:
- Wikipedia: Use for encyclopedic information, definitions, historical facts, scientific concepts
- DuckDuckGo Search: Use for current events, recent news, company updates, breaking news, anything from 2023-2024

ALWAYS use the appropriate search tool when asked about:
- Current events or recent news
- Company updates or developments  
- Recent developments in technology
- What happened in specific years (especially 2023-2024)
- Any factual information you're not certain about

Choose the most appropriate tool based on the question type.".

Definition system_message : BaseMessage := HumanMessage system_prompt.

(** The attribution appended to a tool's output (the inner [if] of the
    [try] block). *)
Definition source_info (tool_name : string) : string :=
  if tool_name =? "wikipedia" then nl +++ nl +++ "Source: Wikipedia"
  else if tool_name =? "duckduckgo_search"
       then nl +++ nl +++ "Source: Web Search (DuckDuckGo)"
       else nl +++ nl +++ "Source: " +++ tool_name.

(** Whether [tool_node] resolves the name to one of its two executors. *)
Definition registered (tool_name : string) : bool :=
  (tool_name =? "wikipedia") || (tool_name =? "duckduckgo_search").

Inductive route : Type :=
| to_tool_node
| to_END.

(** Where the workflow goes after a node: another node, or [END]. *)
Inductive target : Type :=
| Node (n : node_id)
| END.

(** How the body of a [for] loop leaves one round: falling through to the
    next item, or [break]; [L] is the type of the loop's local variables. *)
Inductive control (L : Type) : Type :=
| Continue (s : L)
| Break (s : L).
Arguments Continue {L} s.
Arguments Break {L} s.

Definition leave {L} (c : control L) : L :=
  match c with
  | Continue s => s
  | Break s => s
  end.

Section Agent.

Context {W : Type} (env : Env W).

(** *** Nodes *)

Definition llm_agent_node (state : AgentState) : M W (list BaseMessage) :=
  let messages := state in
  let messages :=
    if (List.length messages =? 1)%nat then [system_message] ++ messages else messages in
  response <- call (llm_with_tools env messages) ;;
  ret [AIMessage (fst response) (snd response)].

(** The [try]/[except] of [tool_node] for one resolved executor; the
    result is [tool_outputs] after the [append]. *)
Definition invoke_and_append
    (tool_executor : ToolCall -> W -> result string * W)
    (tool_call : ToolCall) (tool_outputs : list BaseMessage)
  : M W (list BaseMessage) :=
  let tool_name := tc_name tool_call in
  let tool_id := tc_id tool_call in
  try_except
    (output <- call (tool_executor tool_call) ;;
     ret (tool_outputs ++ [ToolMessage (output +++ source_info tool_name) tool_id]))
    (fun e =>
       print (Line ("    Error using " +++ tool_name +++ ": " +++ str_exn e)) ;;;
       ret (tool_outputs ++ [ToolMessage ("Error: " +++ str_exn e) tool_id])).

(** The [for tool_call in tool_calls] loop, with its early [return] in the
    [else] branch. *)
Fixpoint tool_loop (state : AgentState) (tool_calls : list ToolCall)
    (tool_outputs : list BaseMessage) : M W (list BaseMessage) :=
  match tool_calls with
  | [] => ret tool_outputs
  | tool_call :: rest =>
      let tool_name := tc_name tool_call in
      let tool_args := tc_args tool_call in
      if tool_name =? "wikipedia" then
        print (Line ("   Searching Wikipedia for: "
                     +++ dict_get tool_args "query" "information")) ;;;
        outs <- invoke_and_append (wikipedia_tool env) tool_call tool_outputs ;;
        tool_loop state rest outs
      else if tool_name =? "duckduckgo_search" then
        print (Line ("   Searching the web for: "
                     +++ dict_get tool_args "query" "information")) ;;;
        outs <- invoke_and_append (duckduckgo_tool env) tool_call tool_outputs ;;
        tool_loop state rest outs
      else
        print (Line ("   Using tool: " +++ tool_name)) ;;;
        call (tool_node_fallback env state)
  end.

Definition tool_node (state : AgentState) : M W (list BaseMessage) :=
  last_message <- last_item state ;;
  tool_calls <- get_tool_calls last_message ;;
  tool_loop state tool_calls [].

(** [hasattr(last_message, 'tool_calls') and last_message.tool_calls] *)
Definition has_tool_calls (m : BaseMessage) : bool :=
  match m with
  | AIMessage _ (_ :: _) => true
  | _ => false
  end.

Definition route_agent (state : AgentState) : M W route :=
  last_message <- last_item state ;;
  if has_tool_calls last_message then ret to_tool_node else ret to_END.

(** *** The workflow *)

(** [workflow.add_node]: the callback behind each node name. *)
Definition run_node (n : node_id) (state : AgentState) : M W (list BaseMessage) :=
  match n with
  | N_llm_agent_node => llm_agent_node state
  | N_tool_node => tool_node state
  end.

(** [workflow.set_entry_point]. *)
Definition entry_point : node_id := N_llm_agent_node.

(** The edges: the conditional edge out of [llm_agent_node], with its
    mapping from [route_agent]'s answer, and the plain edge from
    [tool_node] back to [llm_agent_node]. *)
Definition next_target (n : node_id) (state : AgentState) : M W target :=
  match n with
  | N_llm_agent_node =>
      r <- route_agent state ;;
      ret (match r with
           | to_tool_node => Node N_tool_node
           | to_END => END
           end)
  | N_tool_node => ret (Node N_llm_agent_node)
  end.

(** One step of the compiled graph: run the node on the state, merge its
    update with the reducer, follow the edge. *)
Definition graph_step (n : node_id) (state : AgentState)
  : M W (chunk * target * AgentState) :=
  update <- run_node n state ;;
  let state' := reducer state update in
  t <- next_target n state' ;;
  ret (NodeChunk n update, t, state').

(** [for s in app.stream(...): body].  The generator is lazy: a node runs
    when the loop asks for the next chunk, so a [break] leaves the rest of
    the graph unexecuted.  The runtime looks at the limit before it looks
    for what is left to do: with [limit] steps left it runs at most [limit]
    nodes, and a run is over only if it has come to [END] with a step still
    left. *)
Fixpoint stream_for {L : Type} (limit : nat) (t : target) (state : AgentState)
    (body : chunk -> L -> M W (control L)) (s : L) : M W L :=
  match limit with
  | O => raise (GraphRecursionError (recursion_error env))
  | S limit' =>
      match t with
      | END => c <- body (EndChunk state) s ;; ret (leave c)
      | Node n =>
          r <- graph_step n state ;;
          let '(ch, t', state') := r in
          c <- body ch s ;;
          match c with
          | Break s' => ret s'
          | Continue s' => stream_for limit' t' state' body s'
          end
      end
  end.

Definition app_stream_for {L : Type} (initial_state : AgentState)
    (body : chunk -> L -> M W (control L)) (s : L) : M W L :=
  stream_for (recursion_limit env) (Node entry_point)
    (reducer [] initial_state) body s.

(** [app.invoke]: the same graph run to [END], returning the final state. *)
Fixpoint run_graph (limit : nat) (t : target) (state : AgentState)
  : M W AgentState :=
  match limit with
  | O => raise (GraphRecursionError (recursion_error env))
  | S limit' =>
      match t with
      | END => ret state
      | Node n =>
          r <- graph_step n state ;;
          let '(_, t', state') := r in
          run_graph limit' t' state'
      end
  end.

Definition app_invoke (initial_state : AgentState) : M W AgentState :=
  run_graph (recursion_limit env) (Node entry_point) (reducer [] initial_state).

(** *** Entry points *)

Definition max_steps : nat := 10.

Definition rule : printed := Line (string_times "=" 50).

(** The body of the [for] loop of [run_research_agent]; the loop's local
    variable is [step_count]. *)
Definition report_step (s : chunk) (step_count : nat) : M W (control nat) :=
  match s with
  | EndChunk _ => ret (Continue step_count)
  | NodeChunk node_name _ =>
      match node_name with
      | N_llm_agent_node =>
          print (Line ("Step " +++ str_nat step_count
                       +++ ": LLM is analyzing your question..."))
      | N_tool_node =>
          print (Line ("Step " +++ str_nat step_count
                       +++ ": Gathering information from sources..."))
      end ;;;
      let step_count := step_count + 1 in
      if (max_steps <? step_count)%nat then
        print (Line "WARNING: Maximum steps reached. Stopping to prevent infinite loop.") ;;;
        ret (Break step_count)
      else ret (Continue step_count)
  end.

Definition run_research_agent (query : string) : M W unit :=
  print (Line (nl +++ "Question: " +++ query)) ;;;
  print rule ;;;
  let initial_state := [HumanMessage query] in
  let step_count := 1 in
  _ <- app_stream_for initial_state report_step step_count ;;
  try_except
    (final_state <- app_invoke initial_state ;;
     print rule ;;;
     last_message <- last_item final_state ;;
     print (Line ("Answer: " +++ content last_message)) ;;;
     print rule)
    (fun e =>
       print rule ;;;
       print (Line ("Error getting final answer: " +++ str_exn e)) ;;;
       print rule).

(** The body of the [for] loop of [run_research_agent_verbose]. *)
Definition dump_step (s : chunk) (u : unit) : M W (control unit) :=
  match s with
  | EndChunk _ => ret (Continue u)
  | NodeChunk _ _ =>
      print (ChunkDump s) ;;;
      print (Line "---") ;;;
      ret (Continue u)
  end.

Definition run_research_agent_verbose (query : string) : M W unit :=
  print (Line (nl +++ "--- Running Research Agent for: '" +++ query
               +++ "' ---" +++ nl)) ;;;
  let initial_state := [HumanMessage query] in
  _ <- app_stream_for initial_state dump_step tt ;;
  final_state <- app_invoke initial_state ;;
  print (Line (nl +++ "--- FINAL RESPONSE ---")) ;;;
  last_message <- last_item final_state ;;
  print (Line (content last_message)).

End Agent.

(** ** The interactive session ([__main__]) *)

(** What comes in at the terminal while [input] waits: a typed line (without
    its newline), or Ctrl-C.  When nothing is left, [input] is at the end of
    its input. *)
Inductive keyboard : Type :=
| Typed (line : string)
| CtrlC.

(** [c.isspace()], for the characters a [string] holds (code points below
    256): tab to carriage return, the four separators, the space, NEL and
    the no-break space. *)
Definition is_space (c : ascii) : bool :=
  let n := nat_of_ascii c in
  ((9 <=? n)%nat && (n <=? 13)%nat)
  || ((28 <=? n)%nat && (n <=? 32)%nat)
  || (n =? 133)%nat || (n =? 160)%nat.

Fixpoint lstrip_chars (l : list ascii) : list ascii :=
  match l with
  | [] => []
  | c :: l' => if is_space c then lstrip_chars l' else l
  end.

(** [s.strip()] *)
Definition strip (s : string) : string :=
  string_of_list_ascii
    (rev (lstrip_chars (rev (lstrip_chars (list_ascii_of_string s))))).

Definition lower_char (c : ascii) : ascii :=
  let n := nat_of_ascii c in
  if ((65 <=? n)%nat && (n <=? 90)%nat)
     || ((192 <=? n)%nat && (n <=? 222)%nat && negb (n =? 215)%nat)
  then ascii_of_nat (n + 32)
  else c.

(** [s.lower()] *)
Fixpoint lower (s : string) : string :=
  match s with
  | EmptyString => EmptyString
  | String c s' => String (lower_char c) (lower s')
  end.

Definition quit_words : list string := ["quit"; "exit"; "q"].

Definition prompt : string := nl +++ "Enter your question (or 'quit' to exit): ".

Section Main.

Context {W : Type} (env : Env W).

(** [input(prompt)]: writes the prompt and hands over the next line.  At
    the end of the input it raises [EOFError]; Ctrl-C is handed over as
    [None], for the [except KeyboardInterrupt] clause. *)
Definition input (prompt : string) (next : option keyboard) : M W (option string) :=
  print (Line prompt) ;;;
  match next with
  | None => raise (Exception "EOF when reading a line")
  | Some CtrlC => ret None
  | Some (Typed line) => ret (Some line)
  end.

(** One round of [while True]: the [try] with its two [except] clauses.
    Ctrl-C is an event at the prompt only: an interrupt that arrives while
    [run_research_agent] runs, which the [except KeyboardInterrupt] clause
    would meet with the same goodbye, is outside the model, as
    [KeyboardInterrupt] is. *)
Definition main_round (next : option keyboard) : M W (control unit) :=
  try_except
    (typed <- input prompt next ;;
     match typed with
     | None =>
         print (Line (nl +++ "Goodbye!")) ;;;
         ret (Break tt)
     | Some line =>
         let user_query := strip line in
         if existsb (String.eqb (lower user_query)) quit_words then
           print (Line "Goodbye!") ;;;
           ret (Break tt)
         else
           match user_query with
           | EmptyString =>
               print (Line "Please enter a question!") ;;;
               ret (Continue tt)
           | _ =>
               run_research_agent env user_query ;;;
               ret (Continue tt)
           end
     end)
    (fun e =>
       print (Line ("An error occurred: " +++ str_exn e)) ;;;
       print (Line "Please try again with a different question.") ;;;
       ret (Continue tt)).

(** The [while True] loop over what the terminal holds.  [Some rest]: the
    loop was left by [break], with [rest] unread; [None]: it is still
    running after [rounds] rounds. *)
Fixpoint main_loop (rounds : nat) (stdin : list keyboard)
  : M W (option (list keyboard)) :=
  match rounds with
  | O => ret None
  | S rounds' =>
      c <- main_round (hd_error stdin) ;;
      match c with
      | Break _ => ret (Some (tl stdin))
      | Continue _ => main_loop rounds' (tl stdin)
      end
  end.

Definition main (rounds : nat) (stdin : list keyboard)
  : M W (option (list keyboard)) :=
  print (Line "Welcome to the Enhanced Research Agent!") ;;;
  print (Line "Ask me anything and I'll search Wikipedia and the web for answers.") ;;;
  print (Line (string_times "=" 60)) ;;;
  main_loop rounds stdin.

End Main.

(** ** Stubs for the collaborators *)

Module Stubs.

(** A stand-in for the prebuilt [ToolNode] over the two tools: every call
    of the last message is answered by one [ToolMessage] carrying the
    call's id.  A known tool's output is passed on as it is, its failure
    and an unknown name become an error text. *)
Section Reference.

Context {W : Type}.
Variable wikipedia duckduckgo : ToolCall -> W -> result string * W.

Definition run_one (tool : ToolCall -> W -> result string * W)
    (c : ToolCall) (w : W) : BaseMessage * W :=
  match tool c w with
  | (Ok out, w') => (ToolMessage out (tc_id c), w')
  | (Raise e, w') =>
      (ToolMessage ("Error: " +++ str_exn e +++ nl +++ " Please fix your mistakes.")
         (tc_id c), w')
  end.

Fixpoint run_calls (calls : list ToolCall) (w : W) : list BaseMessage * W :=
  match calls with
  | [] => ([], w)
  | c :: rest =>
      let (m, w1) :=
        if tc_name c =? "wikipedia" then run_one wikipedia c w
        else if tc_name c =? "duckduckgo_search" then run_one duckduckgo c w
        else (ToolMessage ("Error: " +++ tc_name c
                           +++ " is not a valid tool, try one of [wikipedia, duckduckgo_search].")
                (tc_id c), w) in
      let (ms, w2) := run_calls rest w1 in
      (m :: ms, w2)
  end.

Definition ToolNode_reference (state : AgentState) (w : W)
  : result (list BaseMessage) * W :=
  match rev state with
  | AIMessage _ calls :: _ =>
      let (ms, w') := run_calls calls w in (Ok ms, w')
  | _ => (Raise (Exception "No AIMessage found in input"), w)
  end.

End Reference.

(** The external state of the stubs: how often the model and the tools
    have been invoked. *)
Record counters : Type := mkCounters {
  llm_calls : nat;
  tool_runs : nat
}.

Definition count_llm (w : counters) : counters :=
  mkCounters (S (llm_calls w)) (tool_runs w).

Definition count_tool (w : counters) : counters :=
  mkCounters (llm_calls w) (S (tool_runs w)).

Definition text_tool (text : string) (c : ToolCall) (w : counters)
  : result string * counters :=
  (Ok text, count_tool w).

Definition failing_tool (msg : string) (c : ToolCall) (w : counters)
  : result string * counters :=
  (Raise (Exception msg), count_tool w).

(** The text of the runtime's [GraphRecursionError] for a limit, as the
    releases of the program's time word it (the text is the runtime's, and
    later releases add to it). *)
Definition limit_text (limit : nat) : string :=
  "Recursion limit of " +++ str_nat limit
  +++ " reached without hitting a stop condition. You can increase the limit by setting the `recursion_limit` config key.".

Definition stub_env
    (llm : list BaseMessage -> counters -> result (string * list ToolCall) * counters)
    (wikipedia duckduckgo : ToolCall -> counters -> result string * counters)
    (limit : nat) : Env counters :=
  mkEnv counters llm wikipedia duckduckgo
    (ToolNode_reference wikipedia duckduckgo) limit (limit_text limit).

Definition wiki_call : ToolCall :=
  mkToolCall "wikipedia" [("query", "Alan Turing")] "call_1".

Definition web_call : ToolCall :=
  mkToolCall "duckduckgo_search" [("query", "latest AI news")] "call_2".

Definition unknown_call : ToolCall :=
  mkToolCall "unknown_tool" [("query", "anything")] "call_3".

(** A model that never answers: every call requests the encyclopedia. *)
Definition llm_always_tool (messages : list BaseMessage) (w : counters)
  : result (string * list ToolCall) * counters :=
  (Ok (EmptyString, [wiki_call]), count_llm w).

(** A model that answers at once, with the number of calls made before. *)
Definition llm_numbered (messages : list BaseMessage) (w : counters)
  : result (string * list ToolCall) * counters :=
  (Ok ("answer " +++ str_nat (llm_calls w), []), count_llm w).

Definition start : world counters := mkWorld (mkCounters 0 0) [].

(** The recursion limit the stubs run under: the runtime's default in the
    releases of the program's time (later releases raised the default). *)
Definition default_limit : nat := 25.

Definition env_always_tool : Env counters :=
  stub_env llm_always_tool (text_tool "Alan Turing was a mathematician.")
    (text_tool "News.") default_limit.

(** The encyclopedia is down; the web search works. *)
Definition env_failing_wikipedia : Env counters :=
  stub_env llm_always_tool (failing_tool "wikipedia is unreachable")
    (text_tool "News.") default_limit.

Definition is_tool_message (m : BaseMessage) : bool :=
  match m with
  | ToolMessage _ _ => true
  | _ => false
  end.

(** A model that asks for one web search and answers once it sees a tool
    message in the conversation. *)
Definition llm_search_once (messages : list BaseMessage) (w : counters)
  : result (string * list ToolCall) * counters :=
  if existsb is_tool_message messages
  then (Ok ("Here is the latest AI news.", []), count_llm w)
  else (Ok (EmptyString, [web_call]), count_llm w).

Definition env_search_once : Env counters :=
  stub_env llm_search_once (text_tool "Alan Turing was a mathematician.")
    (text_tool "News.") default_limit.

Definition env_numbered : Env counters :=
  stub_env llm_numbered (text_tool "Alan Turing was a mathematician.")
    (text_tool "News.") default_limit.

End Stubs.

(** * Vocabulary of the statements *)

Section Vocabulary.

Context {W : Type} (env : Env W).

(** The executor [tool_node] picks for a registered name. *)
Definition executor (tool_name : string) : ToolCall -> W -> result string * W :=
  if tool_name =? "wikipedia" then wikipedia_tool env else duckduckgo_tool env.

(** The line [tool_node] prints before it invokes a registered tool. *)
Definition search_line (c : ToolCall) : printed :=
  if tc_name c =? "wikipedia"
  then Line ("   Searching Wikipedia for: " +++ dict_get (tc_args c) "query" "information")
  else Line ("   Searching the web for: " +++ dict_get (tc_args c) "query" "information").

(** The message the [try]/[except] appends for an executor's outcome. *)
Definition answer_of (c : ToolCall) (r : result string) : BaseMessage :=
  match r with
  | Ok output => ToolMessage (output +++ source_info (tc_name c)) (tc_id c)
  | Raise e => ToolMessage ("Error: " +++ str_exn e) (tc_id c)
  end.

(** What the [except] branch prints. *)
Definition error_lines (c : ToolCall) (r : result string) : list printed :=
  match r with
  | Ok _ => []
  | Raise e => [Line ("    Error using " +++ tc_name c +++ ": " +++ str_exn e)]
  end.

Definition all_registered (calls : list ToolCall) : bool :=
  forallb (fun c => registered (tc_name c)) calls.

(** [m] is a tool message correlated with the call [c]. *)
Definition answers (c : ToolCall) (m : BaseMessage) : Prop :=
  exists text, m = ToolMessage text (tc_id c).

Definition is_error_text (text : string) : bool := String.prefix "Error: " text.

(** [m] answers [c], with an error text when [c] names no registered tool. *)
Definition fallback_answers (c : ToolCall) (m : BaseMessage) : Prop :=
  exists text,
    m = ToolMessage text (tc_id c)
    /\ (registered (tc_name c) = false -> is_error_text text = true).

(** The behaviour expected of the prebuilt [ToolNode]: on a state ending in
    an [AIMessage] it does not raise and returns one tool message per tool
    call, in order, each with its call's id. *)
Definition ToolNode_contract : Prop :=
  forall (front : list BaseMessage) (c : string) (calls : list ToolCall) (x : W),
  exists outs x',
    tool_node_fallback env (front ++ [AIMessage c calls]) x = (Ok outs, x')
    /\ Forall2 fallback_answers calls outs.

(** The collaborators' answers depend on what they are asked, not on the
    state of the outside world. *)
Definition input_determined : Prop :=
  (forall ms x y, fst (llm_with_tools env ms x) = fst (llm_with_tools env ms y))
  /\ (forall c x y, fst (wikipedia_tool env c x) = fst (wikipedia_tool env c y))
  /\ (forall c x y, fst (duckduckgo_tool env c x) = fst (duckduckgo_tool env c y))
  /\ (forall st x y, fst (tool_node_fallback env st x) = fst (tool_node_fallback env st y)).

(** The model never answers: it always returns at least one tool call. *)
Definition always_requests_tool : Prop :=
  forall ms x, exists c call calls x',
    llm_with_tools env ms x = (Ok (c, call :: calls), x').

(** The positions (next node, state) a run on [query] can be in, whatever
    the outside world does between two steps. *)
Inductive reachable (query : string) : target -> AgentState -> Prop :=
| reach_start :
    reachable query (Node entry_point) (reducer [] [HumanMessage query])
| reach_step n state w ch t state' w' :
    reachable query (Node n) state ->
    graph_step env n state w = (Ok (ch, t, state'), w') ->
    reachable query t state'.

(** [tool_node] is only due behind an [AIMessage] that carries tool
    calls. *)
Definition tool_ready (n : node_id) (state : AgentState) : Prop :=
  match n with
  | N_llm_agent_node => True
  | N_tool_node =>
      exists front c call calls, state = front ++ [AIMessage c (call :: calls)]
  end.

Definition warning : printed :=
  Line "WARNING: Maximum steps reached. Stopping to prevent infinite loop.".

(** A computation whose outcome (its value, or the exception it raises)
    is the same in every world. *)
Definition blind {A : Type} (m : M W A) : Prop :=
  forall w1 w2, fst (m w1) = fst (m w2).

Definition tool_call_id_of (m : BaseMessage) : option string :=
  match m with
  | ToolMessage _ i => Some i
  | _ => None
  end.

End Vocabulary.

(** ** Further vocabulary and stubs *)

Section Counting.

Context {W : Type} (env : Env W).

(** [reaches k t state t' state']: [k] node executions, in whatever worlds,
    lead from the position [(t, state)] to the position [(t', state')]. *)
Inductive reaches : nat -> target -> AgentState -> target -> AgentState -> Prop :=
| reaches_here t state : reaches 0 t state t state
| reaches_next n state w ch t1 state1 w1 k t2 state2 :
    graph_step env n state w = (Ok (ch, t1, state1), w1) ->
    reaches k t1 state1 t2 state2 ->
    reaches (S k) (Node n) state t2 state2.

End Counting.

(** The [try] statement that ends [run_research_agent]. *)
Definition final_report {W : Type} (env : Env W) (initial_state : AgentState)
  : M W unit :=
  try_except
    (final_state <- app_invoke env initial_state ;;
     print rule ;;;
     last_message <- last_item final_state ;;
     print (Line ("Answer: " +++ content last_message)) ;;;
     print rule)
    (fun e =>
       print rule ;;;
       print (Line ("Error getting final answer: " +++ str_exn e)) ;;;
       print rule).

(** The progress line for the node that ran as step [k]. *)
Definition step_line (n : node_id) (k : nat) : printed :=
  match n with
  | N_llm_agent_node =>
      Line ("Step " +++ str_nat k +++ ": LLM is analyzing your question...")
  | N_tool_node =>
      Line ("Step " +++ str_nat k +++ ": Gathering information from sources...")
  end.

Section Progress.

Context {W : Type} (env : Env W).

(** [progress n k t state w t' state' w']: the progress loop, its counter
    at [k], the graph at the position [(t, state)] and the world [w],
    executes [n] nodes one after the other, each in the world the one before
    left, each followed by its progress line, and stands at the position
    [(t', state')] in the world [w']. *)
Inductive progress
  : nat -> nat -> target -> AgentState -> world W
    -> target -> AgentState -> world W -> Prop :=
| progress_done k t state w : progress 0 k t state w t state w
| progress_step n k nd state w update t1 state1 w1 t2 state2 w2 :
    graph_step env nd state w = (Ok (NodeChunk nd update, t1, state1), w1) ->
    progress n (k + 1) t1 state1
      (mkWorld (ext w1) (stdout w1 ++ [step_line nd k])) t2 state2 w2 ->
    progress (S n) k (Node nd) state w t2 state2 w2.

End Progress.

(** The messages of the chunks dumped on the output, in order. *)
Definition dumped_updates (out : list printed) : list BaseMessage :=
  flat_map (fun p => match p with
                     | ChunkDump (NodeChunk _ update) => update
                     | _ => []
                     end) out.

(** Whether an event at the prompt ends the session: Ctrl-C, or a line that
    reads [quit], [exit] or [q] once stripped and lowered. *)
Definition leaves (k : keyboard) : bool :=
  match k with
  | CtrlC => true
  | Typed line => existsb (String.eqb (lower (strip line))) quit_words
  end.

Definition farewell (k : keyboard) : printed :=
  match k with
  | CtrlC => Line (nl +++ "Goodbye!")
  | Typed _ => Line "Goodbye!"
  end.

(** What one round prints at the end of the input. *)
Definition eof_round : list printed :=
  [Line prompt;
   Line "An error occurred: EOF when reading a line";
   Line "Please try again with a different question."].

Module SessionStubs.

(** A model that answers at once, always with the same text. *)
Definition llm_direct (answer : string) (messages : list BaseMessage)
    (w : Stubs.counters)
  : result (string * list ToolCall) * Stubs.counters :=
  (Ok (answer, []), Stubs.count_llm w).

Definition env_direct : Env Stubs.counters :=
  Stubs.stub_env (llm_direct "Paris") (Stubs.text_tool "Alan Turing was a mathematician.")
    (Stubs.text_tool "News.") Stubs.default_limit.

(** The reasoning service is down. *)
Definition llm_down (messages : list BaseMessage) (w : Stubs.counters)
  : result (string * list ToolCall) * Stubs.counters :=
  (Raise (Exception "503 service unavailable"), Stubs.count_llm w).

Definition env_llm_down : Env Stubs.counters :=
  Stubs.stub_env llm_down (Stubs.text_tool "Alan Turing was a mathematician.")
    (Stubs.text_tool "News.") Stubs.default_limit.

(** A model that only ever asks for a tool nobody registered. *)
Definition llm_unknown_tool (messages : list BaseMessage) (w : Stubs.counters)
  : result (string * list ToolCall) * Stubs.counters :=
  (Ok (EmptyString, [Stubs.unknown_call]), Stubs.count_llm w).

(** A fallback that looks the tool up by name and fails on a name it does
    not know. *)
Definition fallback_key_error (state : AgentState) (w : Stubs.counters)
  : result (list BaseMessage) * Stubs.counters :=
  (Raise (Exception "KeyError: 'unknown_tool'"), w).

Definition env_key_error : Env Stubs.counters :=
  mkEnv Stubs.counters llm_unknown_tool
    (Stubs.text_tool "Alan Turing was a mathematician.") (Stubs.text_tool "News.")
    fallback_key_error Stubs.default_limit (Stubs.limit_text Stubs.default_limit).

(** A model that never answers, over tools that work, under the recursion
    limit [limit]; [text] is what the runtime's [GraphRecursionError]
    says. *)
Definition env_never_answers (limit : nat) (text : string) : Env Stubs.counters :=
  mkEnv Stubs.counters Stubs.llm_always_tool
    (Stubs.text_tool "Alan Turing was a mathematician.") (Stubs.text_tool "News.")
    (Stubs.ToolNode_reference
       (Stubs.text_tool "Alan Turing was a mathematician.") (Stubs.text_tool "News."))
    limit text.

(** A model that asks for the encyclopedia and, in the same batch, for a
    tool nobody registered. *)
Definition llm_mixed_batch (messages : list BaseMessage) (w : Stubs.counters)
  : result (string * list ToolCall) * Stubs.counters :=
  (Ok (EmptyString, [Stubs.wiki_call; Stubs.unknown_call]), Stubs.count_llm w).



(** The model asks for the encyclopedia and an unregistered tool at once;
    the tools work, and the prebuilt [ToolNode] is the stand-in of
    [Stubs]. *)
Definition env_mixed_batch : Env Stubs.counters :=
  Stubs.stub_env llm_mixed_batch (Stubs.text_tool "Alan Turing was a mathematician.")
    (Stubs.text_tool "News.") Stubs.default_limit.


End SessionStubs.

(** What the progress loop prints for the [i]-th decision cycle of a run in
    which the model asks for the encyclopedia: the two progress lines, with
    the tool's search line between them. *)
Definition cycle_lines (i : nat) : list printed :=
  [step_line N_llm_agent_node (2 * i - 1);
   search_line Stubs.wiki_call;
   step_line N_tool_node (2 * i)].

(** * Properties *)

(** ** The monad's equations *)

Section MonadEquations.

Context {W : Type}.

Lemma bind_ok {A B} (m : M W A) (k : A -> M W B) (w w' : world W) (a : A) :
  m w = (Ok a, w') -> bind m k w = k a w'.
Proof. intros H. unfold bind. now rewrite H. Qed.

Lemma bind_raise {A B} (m : M W A) (k : A -> M W B) (w w' : world W) (e : exn) :
  m w = (Raise e, w') -> bind m k w = (Raise e, w').
Proof. intros H. unfold bind. now rewrite H. Qed.

Lemma bind_inv_ok {A B} (m : M W A) (k : A -> M W B) (w w' : world W) (b : B) :
  bind m k w = (Ok b, w') ->
  exists a w1, m w = (Ok a, w1) /\ k a w1 = (Ok b, w').
Proof.
  unfold bind. destruct (m w) as [[a | e] w1]; intros H.
  - now exists a, w1.
  - discriminate.
Qed.

Lemma print_eq (p : printed) (w : world W) :
  print p w = (Ok tt, mkWorld (ext w) (stdout w ++ [p])).
Proof. reflexivity. Qed.

Lemma last_item_snoc (xs : list BaseMessage) (x : BaseMessage) (w : world W) :
  last_item (xs ++ [x]) w = (Ok x, w).
Proof. unfold last_item. now rewrite rev_unit. Qed.

Lemma last_item_ok_inv (xs : list BaseMessage) (x : BaseMessage) (w w' : world W) :
  last_item xs w = (Ok x, w') -> w' = w /\ exists front, xs = front ++ [x].
Proof.
  unfold last_item. intros H.
  destruct (rev xs) as [| y ys] eqn:E.
  - discriminate.
  - inversion H; subst. split; [reflexivity |].
    exists (rev ys). rewrite <- (rev_involutive xs), E. reflexivity.
Qed.

End MonadEquations.

(** ** The router *)

Lemma route_agent_snoc (W : Type) (front : list BaseMessage) (x : BaseMessage)
    (w : world W) :
  route_agent (front ++ [x]) w
  = (Ok (if has_tool_calls x then to_tool_node else to_END), w).
Proof.
  unfold route_agent.
  rewrite (bind_ok _ _ _ _ _ (last_item_snoc front x w)).
  now destruct (has_tool_calls x).
Qed.

(** C3.  [route_agent] is defined on every state with a last entry, leaves
    the world untouched, and its answer is a function of that entry alone:
    [tool_node] exactly for an [AIMessage] with at least one tool call,
    [END] for an [AIMessage] without tool calls whatever its content, and
    [END] for the entries that have no [tool_calls] attribute. *)
Theorem route_agent_total_pure :
  forall (W : Type) (front : list BaseMessage) (m : BaseMessage) (w : world W),
    route_agent (front ++ [m]) w
    = (Ok match m with
          | AIMessage _ (_ :: _) => to_tool_node
          | _ => to_END
          end, w)
    /\ (route_agent (front ++ [m]) w = (Ok to_tool_node, w)
        <-> exists c call calls, m = AIMessage c (call :: calls))
    /\ (forall c, route_agent (front ++ [AIMessage c []]) w = (Ok to_END, w))
    /\ (forall c, route_agent (front ++ [HumanMessage c]) w = (Ok to_END, w))
    /\ (forall c i, route_agent (front ++ [ToolMessage c i]) w = (Ok to_END, w)).
Proof.
  intros W front m w.
  pose proof (fun x => route_agent_snoc W front x w) as R.
  repeat split.
  - rewrite R. destruct m as [c | c [| call calls] | c i]; reflexivity.
  - rewrite R. destruct m as [c | c [| call calls] | c i]; simpl; intros H;
      try discriminate. now exists c, call, calls.
  - intros (c & call & calls & ->). now rewrite R.
  - intros c. now rewrite R.
  - intros c. now rewrite R.
  - intros c i. now rewrite R.
Qed.

(** ** The tool loop *)

Section ToolLoop.

Context {W : Type} (env : Env W).

Lemma invoke_and_append_eq (tool : ToolCall -> W -> result string * W)
    (c : ToolCall) (acc : list BaseMessage) (w : world W) :
  invoke_and_append tool c acc w
  = (Ok (acc ++ [answer_of c (fst (tool c (ext w)))]),
     mkWorld (snd (tool c (ext w)))
             (stdout w ++ error_lines c (fst (tool c (ext w))))).
Proof.
  unfold invoke_and_append, try_except, bind, call, ret, print.
  destruct (tool c (ext w)) as [[out | e] x]; simpl.
  - now rewrite app_nil_r.
  - reflexivity.
Qed.

Lemma registered_cases (name : string) :
  registered name = true ->
  (name =? "wikipedia") = true
  \/ ((name =? "wikipedia") = false /\ (name =? "duckduckgo_search") = true).
Proof.
  unfold registered. destruct (name =? "wikipedia"); simpl; auto.
Qed.

Lemma unregistered_cases (name : string) :
  registered name = false ->
  (name =? "wikipedia") = false /\ (name =? "duckduckgo_search") = false.
Proof.
  unfold registered. destruct (name =? "wikipedia"); simpl; auto. discriminate.
Qed.

(** One round of the loop on a registered name. *)
Lemma tool_loop_cons_registered (state : AgentState) (c : ToolCall)
    (rest : list ToolCall) (acc : list BaseMessage) (w : world W) :
  registered (tc_name c) = true ->
  tool_loop env state (c :: rest) acc w
  = tool_loop env state rest
      (acc ++ [answer_of c (fst (executor env (tc_name c) c (ext w)))])
      (mkWorld (snd (executor env (tc_name c) c (ext w)))
         (stdout w ++ search_line c
            :: error_lines c (fst (executor env (tc_name c) c (ext w))))).
Proof.
  intros R. unfold executor, search_line. simpl tool_loop.
  destruct (registered_cases _ R) as [E | [E1 E2]].
  - rewrite E. unfold bind at 1. rewrite print_eq.
    unfold bind at 1. rewrite invoke_and_append_eq. simpl.
    now rewrite <- app_assoc.
  - rewrite E1, E2. unfold bind at 1. rewrite print_eq.
    unfold bind at 1. rewrite invoke_and_append_eq. simpl.
    now rewrite <- app_assoc.
Qed.

(** One round of the loop on any other name: the early [return]. *)
Lemma tool_loop_cons_unregistered (state : AgentState) (c : ToolCall)
    (rest : list ToolCall) (acc : list BaseMessage) (w : world W) :
  registered (tc_name c) = false ->
  tool_loop env state (c :: rest) acc w
  = call (tool_node_fallback env state)
      (mkWorld (ext w) (stdout w ++ [Line ("   Using tool: " +++ tc_name c)])).
Proof.
  intros R. destruct (unregistered_cases _ R) as [E1 E2].
  simpl tool_loop. rewrite E1, E2. reflexivity.
Qed.

(** A prefix of registered calls is worked off one by one; every call gets
    its message, and the loop goes on with what follows. *)
Lemma tool_loop_app (state : AgentState) (pre : list ToolCall) :
  all_registered pre = true ->
  forall (rest : list ToolCall) (acc : list BaseMessage) (w : world W),
  exists outs w1,
    tool_loop env state pre acc w = (Ok (acc ++ outs), w1)
    /\ Forall2 answers pre outs
    /\ tool_loop env state (pre ++ rest) acc w
       = tool_loop env state rest (acc ++ outs) w1.
Proof.
  induction pre as [| c pre IH]; intros R rest acc w.
  - exists [], w. rewrite app_nil_r. repeat split. constructor.
  - simpl in R. apply andb_prop in R. destruct R as [Rc Rpre].
    set (r := executor env (tc_name c) c (ext w)).
    destruct (IH Rpre rest (acc ++ [answer_of c (fst r)])
                (mkWorld (snd r) (stdout w ++ search_line c :: error_lines c (fst r))))
      as (outs & w1 & H1 & H2 & H3).
    exists (answer_of c (fst r) :: outs), w1.
    rewrite <- app_comm_cons.
    rewrite !(tool_loop_cons_registered state c _ acc w Rc).
    fold r. rewrite <- app_assoc in H1, H3. simpl in H1, H3.
    repeat split; try assumption.
    constructor; [| assumption].
    unfold answers, answer_of. destruct (fst r); eexists; reflexivity.
Qed.

Lemma tool_node_snoc (front : list BaseMessage) (c : string)
    (calls : list ToolCall) (w : world W) :
  tool_node env (front ++ [AIMessage c calls]) w
  = tool_loop env (front ++ [AIMessage c calls]) calls [] w.
Proof.
  unfold tool_node.
  rewrite (bind_ok _ _ _ _ _ (last_item_snoc front (AIMessage c calls) w)).
  reflexivity.
Qed.

(** Every batch splits into its registered prefix and, when there is one,
    the first unregistered call with what follows it. *)
Lemma split_at_unregistered (calls : list ToolCall) :
  all_registered calls = true
  \/ exists pre c post,
       calls = pre ++ c :: post
       /\ all_registered pre = true /\ registered (tc_name c) = false.
Proof.
  induction calls as [| c calls IH].
  - now left.
  - destruct (registered (tc_name c)) eqn:R.
    + destruct IH as [IH | (pre & c' & post & -> & Hpre & Hc)].
      * left. simpl. now rewrite R.
      * right. exists (c :: pre), c', post. simpl. rewrite R. auto.
    + right. exists [], c, calls. auto.
Qed.

End ToolLoop.

(** ** The dispatcher *)

Section Dispatcher.

Context {W : Type} (env : Env W).

(** On registered calls the loop never looks at the state. *)
Lemma tool_loop_state_irrelevant (calls : list ToolCall) :
  all_registered calls = true ->
  forall (st1 st2 : AgentState) (acc : list BaseMessage) (w : world W),
    tool_loop env st1 calls acc w = tool_loop env st2 calls acc w.
Proof.
  induction calls as [| c calls IH]; intros R st1 st2 acc w.
  - reflexivity.
  - simpl in R. apply andb_prop in R. destruct R as [Rc Rcalls].
    rewrite !(tool_loop_cons_registered env _ c calls acc w Rc).
    now apply IH.
Qed.

Lemma all_registered_app (xs ys : list ToolCall) :
  all_registered (xs ++ ys) = all_registered xs && all_registered ys.
Proof. apply forallb_app. Qed.

Lemma fallback_answers_answers (calls : list ToolCall) (outs : list BaseMessage) :
  Forall2 fallback_answers calls outs -> Forall2 answers calls outs.
Proof.
  induction 1 as [| c m calls outs (text & -> & _) _ IH]; constructor.
  - now exists text.
  - exact IH.
Qed.

Lemma answers_ids (calls : list ToolCall) (outs : list BaseMessage) :
  Forall2 answers calls outs ->
  map tool_call_id_of outs = map (fun c => Some (tc_id c)) calls.
Proof.
  induction 1 as [| c m calls outs (text & ->) _ IH]; simpl.
  - reflexivity.
  - now rewrite IH.
Qed.

(** A batch with an unregistered name ends in the fallback, called on the
    whole state once the registered calls before that name have run. *)
Lemma tool_node_reaches_fallback (front : list BaseMessage) (content : string)
    (pre : list ToolCall) (c : ToolCall) (post : list ToolCall) (w : world W) :
  all_registered pre = true ->
  registered (tc_name c) = false ->
  exists collected w1,
    tool_loop env (front ++ [AIMessage content (pre ++ c :: post)]) pre [] w
    = (Ok collected, w1)
    /\ Forall2 answers pre collected
    /\ tool_node env (front ++ [AIMessage content (pre ++ c :: post)]) w
       = call (tool_node_fallback env (front ++ [AIMessage content (pre ++ c :: post)]))
           (mkWorld (ext w1) (stdout w1 ++ [Line ("   Using tool: " +++ tc_name c)])).
Proof.
  intros Rpre Rc.
  destruct (tool_loop_app env (front ++ [AIMessage content (pre ++ c :: post)])
              pre Rpre (c :: post) [] w) as (outs & w1 & H1 & H2 & H3).
  exists outs, w1. simpl in H1, H3. repeat split; try assumption.
  rewrite tool_node_snoc, H3. now apply tool_loop_cons_unregistered.
Qed.

Lemma call_ok {A} (f : W -> result A * W) (w : world W) (a : A) (x : W) :
  f (ext w) = (Ok a, x) -> call f w = (Ok a, mkWorld x (stdout w)).
Proof. intros H. unfold call. now rewrite H. Qed.

(** After [tool_node] the workflow appends its messages and goes back to
    [llm_agent_node]. *)
Lemma graph_step_tool_node (state : AgentState) (outs : list BaseMessage)
    (w w' : world W) :
  tool_node env state w = (Ok outs, w') ->
  graph_step env N_tool_node state w
  = (Ok (NodeChunk N_tool_node outs, Node N_llm_agent_node, state ++ outs), w').
Proof.
  intros H. unfold graph_step. simpl run_node.
  now rewrite (bind_ok _ _ _ _ _ H).
Qed.

(** Whatever the batch, [tool_node] returns the messages of its own loop
    or those of the fallback. *)
Lemma tool_node_answers_all (front : list BaseMessage) (content : string)
    (calls : list ToolCall) (w : world W) :
  ToolNode_contract env ->
  exists outs w',
    tool_node env (front ++ [AIMessage content calls]) w = (Ok outs, w')
    /\ Forall2 answers calls outs.
Proof.
  intros contract.
  destruct (split_at_unregistered calls) as [R | (pre & c & post & -> & Rpre & Rc)].
  - destruct (tool_loop_app env (front ++ [AIMessage content calls]) calls R [] [] w)
      as (outs & w1 & H1 & H2 & _).
    exists outs, w1. rewrite tool_node_snoc. now split.
  - destruct (tool_node_reaches_fallback front content pre c post w Rpre Rc)
      as (collected & w1 & _ & _ & H).
    destruct (contract front content (pre ++ c :: post) (ext w1))
      as (outs & x' & Hf & Hans).
    exists outs, (mkWorld x' (stdout w1 ++ [Line ("   Using tool: " +++ tc_name c)])).
    split.
    + rewrite H. now apply call_ok.
    + now apply fallback_answers_answers.
Qed.

End Dispatcher.

(** C2.  Provided the prebuilt [ToolNode] keeps its contract, [tool_node]
    answers an [AIMessage] carrying N tool calls with exactly N tool
    messages, the k-th of which carries the id of the k-th call: same order,
    nothing dropped, and no id twice when the calls' ids are distinct. *)
Theorem tool_node_one_result_per_request :
  forall (W : Type) (env : Env W),
    ToolNode_contract env ->
    forall (front : list BaseMessage) (content : string)
           (calls : list ToolCall) (w : world W),
    exists outs w',
      tool_node env (front ++ [AIMessage content calls]) w = (Ok outs, w')
      /\ List.length outs = List.length calls
      /\ Forall2 answers calls outs
      /\ map tool_call_id_of outs = map (fun c => Some (tc_id c)) calls
      /\ (NoDup (map tc_id calls) -> NoDup (map tool_call_id_of outs)).
Proof.
  intros W env contract front content calls w.
  destruct (tool_node_answers_all env front content calls w contract)
    as (outs & w' & H & Hans).
  exists outs, w'. repeat split; try assumption.
  - symmetry. eapply Forall2_length. exact Hans.
  - now apply answers_ids.
  - intros ND. rewrite (answers_ids _ _ Hans).
    rewrite <- (map_map tc_id Some).
    induction ND as [| i ids Hnotin _ IH]; simpl; constructor.
    + intros Hin. apply in_map_iff in Hin. destruct Hin as (j & E & Hj).
      inversion E; subst. contradiction.
    + exact IH.
Qed.

(** The stand-in for the prebuilt [ToolNode] keeps the contract. *)
Lemma run_calls_answers (W : Type)
    (wikipedia duckduckgo : ToolCall -> W -> result string * W)
    (calls : list ToolCall) (x : W) :
  Forall2 fallback_answers calls (fst (Stubs.run_calls wikipedia duckduckgo calls x)).
Proof.
  revert x. induction calls as [| c calls IH]; intros x; simpl.
  - constructor.
  - assert (S1 : forall tool,
               exists text x1, Stubs.run_one tool c x = (ToolMessage text (tc_id c), x1)).
    { intros tool. unfold Stubs.run_one.
      destruct (tool c x) as [[out | e] x1]; eexists; eexists; reflexivity. }
    destruct (tc_name c =? "wikipedia") eqn:E1;
      [| destruct (tc_name c =? "duckduckgo_search") eqn:E2].
    + destruct (S1 wikipedia) as (text & x1 & ->).
      specialize (IH x1). destruct (Stubs.run_calls wikipedia duckduckgo calls x1).
      simpl. constructor; [| exact IH].
      exists text. split; [reflexivity |].
      unfold registered. rewrite E1. discriminate.
    + destruct (S1 duckduckgo) as (text & x1 & ->).
      specialize (IH x1). destruct (Stubs.run_calls wikipedia duckduckgo calls x1).
      simpl. constructor; [| exact IH].
      exists text. split; [reflexivity |].
      unfold registered. rewrite E1, E2. discriminate.
    + specialize (IH x). destruct (Stubs.run_calls wikipedia duckduckgo calls x).
      simpl. constructor; [| exact IH].
      eexists. split; [reflexivity |].
      intros _. unfold is_error_text. cbn.
      now destruct (tc_name c +++ _).
Qed.

Lemma stub_env_contract
    (llm : list BaseMessage -> Stubs.counters
           -> result (string * list ToolCall) * Stubs.counters)
    (wikipedia duckduckgo : ToolCall -> Stubs.counters -> result string * Stubs.counters)
    (limit : nat) :
  ToolNode_contract (Stubs.stub_env llm wikipedia duckduckgo limit).
Proof.
  intros front c calls x. simpl. unfold Stubs.ToolNode_reference.
  rewrite rev_unit.
  pose proof (run_calls_answers _ wikipedia duckduckgo calls x) as H.
  destruct (Stubs.run_calls wikipedia duckduckgo calls x) as [ms x'].
  now exists ms, x'.
Qed.

Lemma tool_node_one_result_per_request_witness :
  ToolNode_contract Stubs.env_always_tool
  /\ exists outs w',
       tool_node Stubs.env_always_tool
         ([HumanMessage "q"]
            ++ [AIMessage EmptyString [Stubs.wiki_call; Stubs.unknown_call; Stubs.web_call]])
         Stubs.start = (Ok outs, w')
       /\ List.length outs = 3
       /\ Forall2 answers [Stubs.wiki_call; Stubs.unknown_call; Stubs.web_call] outs
       /\ map tool_call_id_of outs = [Some "call_1"; Some "call_3"; Some "call_2"]
       /\ (NoDup ["call_1"; "call_3"; "call_2"] -> NoDup (map tool_call_id_of outs)).
Proof.
  split.
  - apply stub_env_contract.
  - apply (tool_node_one_result_per_request _ Stubs.env_always_tool
             (stub_env_contract _ _ _ _) [HumanMessage "q"] EmptyString
             [Stubs.wiki_call; Stubs.unknown_call; Stubs.web_call] Stubs.start).
Defined.

(** C5.  Provided the prebuilt [ToolNode] keeps its contract: when a call of
    the batch names no registered tool, [tool_node] hands the state to the
    fallback and returns its messages, one per call of the batch; the one at
    the position of the unregistered call carries that call's id and an
    error text; nothing is raised and the workflow goes on to
    [llm_agent_node]. *)
Theorem unregistered_tool_still_answered :
  forall (W : Type) (env : Env W),
    ToolNode_contract env ->
    forall (front : list BaseMessage) (content : string)
           (pre : list ToolCall) (c : ToolCall) (post : list ToolCall) (w : world W),
      registered (tc_name c) = false ->
      exists outs_pre text outs_post w0 w',
        tool_node env (front ++ [AIMessage content (pre ++ c :: post)]) w
        = call (tool_node_fallback env (front ++ [AIMessage content (pre ++ c :: post)])) w0
        /\ tool_node env (front ++ [AIMessage content (pre ++ c :: post)]) w
           = (Ok (outs_pre ++ ToolMessage text (tc_id c) :: outs_post), w')
        /\ is_error_text text = true
        /\ Forall2 answers pre outs_pre
        /\ Forall2 answers post outs_post
        /\ graph_step env N_tool_node (front ++ [AIMessage content (pre ++ c :: post)]) w
           = (Ok (NodeChunk N_tool_node (outs_pre ++ ToolMessage text (tc_id c) :: outs_post),
                  Node N_llm_agent_node,
                  (front ++ [AIMessage content (pre ++ c :: post)])
                    ++ outs_pre ++ ToolMessage text (tc_id c) :: outs_post), w').
Proof.
  intros W env contract front content pre c post w Rc.
  destruct (split_at_unregistered (pre ++ c :: post))
    as [R | (pre' & c' & post' & E & Rpre' & Rc')].
  - rewrite all_registered_app in R. apply andb_prop in R. destruct R as [_ R].
    simpl in R. rewrite Rc in R. discriminate.
  - rewrite E.
    destruct (tool_node_reaches_fallback env front content pre' c' post' w Rpre' Rc')
      as (collected & w1 & _ & _ & H).
    destruct (contract front content (pre' ++ c' :: post') (ext w1))
      as (outs & x' & Hf & Hans).
    rewrite <- E in Hans.
    apply Forall2_app_inv_l in Hans.
    destruct Hans as (outs_pre & rest & Hpre & Hrest & ->).
    inversion Hrest as [| c0 m post0 outs_post (text & -> & Herr) Hpost]; subst.
    set (w0 := mkWorld (ext w1) (stdout w1 ++ [Line ("   Using tool: " +++ tc_name c')])).
    assert (Hnode :
              tool_node env (front ++ [AIMessage content (pre' ++ c' :: post')]) w
              = (Ok (outs_pre ++ ToolMessage text (tc_id c) :: outs_post),
                 mkWorld x' (stdout w0))).
    { rewrite H. now apply call_ok. }
    exists outs_pre, text, outs_post, w0, (mkWorld x' (stdout w0)).
    repeat split.
    + exact H.
    + exact Hnode.
    + now apply Herr.
    + now apply fallback_answers_answers.
    + now apply fallback_answers_answers.
    + now apply graph_step_tool_node.
Qed.

Lemma unregistered_tool_still_answered_witness :
  ToolNode_contract Stubs.env_always_tool
  /\ registered (tc_name Stubs.unknown_call) = false
  /\ exists outs_pre text outs_post w0 w',
       tool_node Stubs.env_always_tool
         ([HumanMessage "q"] ++ [AIMessage EmptyString ([] ++ Stubs.unknown_call :: [])])
         Stubs.start
       = call (tool_node_fallback Stubs.env_always_tool
                 ([HumanMessage "q"]
                    ++ [AIMessage EmptyString ([] ++ Stubs.unknown_call :: [])])) w0
       /\ tool_node Stubs.env_always_tool
            ([HumanMessage "q"] ++ [AIMessage EmptyString ([] ++ Stubs.unknown_call :: [])])
            Stubs.start
          = (Ok (outs_pre ++ ToolMessage text (tc_id Stubs.unknown_call) :: outs_post), w')
       /\ is_error_text text = true
       /\ Forall2 answers [] outs_pre
       /\ Forall2 answers [] outs_post
       /\ graph_step Stubs.env_always_tool N_tool_node
            ([HumanMessage "q"] ++ [AIMessage EmptyString ([] ++ Stubs.unknown_call :: [])])
            Stubs.start
          = (Ok (NodeChunk N_tool_node
                   (outs_pre ++ ToolMessage text (tc_id Stubs.unknown_call) :: outs_post),
                 Node N_llm_agent_node,
                 ([HumanMessage "q"]
                    ++ [AIMessage EmptyString ([] ++ Stubs.unknown_call :: [])])
                   ++ outs_pre ++ ToolMessage text (tc_id Stubs.unknown_call) :: outs_post),
             w').
Proof.
  split; [apply stub_env_contract | split; [reflexivity |]].
  apply (unregistered_tool_still_answered _ Stubs.env_always_tool
           (stub_env_contract _ _ _ _) [HumanMessage "q"] EmptyString
           [] Stubs.unknown_call [] Stubs.start).
  reflexivity.
Defined.

(** C10.  When the batch holds an unregistered name, with only registered
    names before it, [tool_node] returns what the fallback returns for the
    whole state.  The loop has by then run the calls before that name, and
    only those (the same messages and the same world come out of the loop on
    [pre] under any state); the messages it collected for them are not part
    of the result, which is the fallback's, and the calls after the
    unregistered one are never handed to an executor by the loop. *)
Theorem unregistered_name_hands_batch_to_fallback :
  forall (W : Type) (env : Env W) (front : list BaseMessage) (content : string)
         (pre : list ToolCall) (c : ToolCall) (post : list ToolCall) (w : world W),
    all_registered pre = true ->
    registered (tc_name c) = false ->
    exists collected w1,
      (forall st, tool_loop env st pre [] w = (Ok collected, w1))
      /\ Forall2 answers pre collected
      /\ tool_node env (front ++ [AIMessage content (pre ++ c :: post)]) w
         = call (tool_node_fallback env (front ++ [AIMessage content (pre ++ c :: post)]))
             (mkWorld (ext w1) (stdout w1 ++ [Line ("   Using tool: " +++ tc_name c)]))
      /\ fst (tool_node env (front ++ [AIMessage content (pre ++ c :: post)]) w)
         = fst (tool_node_fallback env
                  (front ++ [AIMessage content (pre ++ c :: post)]) (ext w1)).
Proof.
  intros W env front content pre c post w Rpre Rc.
  destruct (tool_node_reaches_fallback env front content pre c post w Rpre Rc)
    as (collected & w1 & H1 & H2 & H3).
  exists collected, w1. repeat split.
  - intros st. rewrite <- H1. now apply tool_loop_state_irrelevant.
  - exact H2.
  - exact H3.
  - rewrite H3. unfold call. simpl.
    now destruct (tool_node_fallback env _ (ext w1)).
Qed.

Lemma unregistered_name_hands_batch_to_fallback_witness :
  all_registered [Stubs.wiki_call] = true
  /\ registered (tc_name Stubs.unknown_call) = false
  /\ (exists collected w1,
        (forall st, tool_loop Stubs.env_always_tool st [Stubs.wiki_call] [] Stubs.start
                    = (Ok collected, w1))
        /\ Forall2 answers [Stubs.wiki_call] collected
        /\ tool_node Stubs.env_always_tool
             ([HumanMessage "q"]
                ++ [AIMessage EmptyString
                      ([Stubs.wiki_call] ++ Stubs.unknown_call :: [Stubs.web_call])])
             Stubs.start
           = call (tool_node_fallback Stubs.env_always_tool
                     ([HumanMessage "q"]
                        ++ [AIMessage EmptyString
                              ([Stubs.wiki_call] ++ Stubs.unknown_call :: [Stubs.web_call])]))
               (mkWorld (ext w1)
                  (stdout w1 ++ [Line ("   Using tool: " +++ tc_name Stubs.unknown_call)]))
        /\ fst (tool_node Stubs.env_always_tool
                  ([HumanMessage "q"]
                     ++ [AIMessage EmptyString
                           ([Stubs.wiki_call] ++ Stubs.unknown_call :: [Stubs.web_call])])
                  Stubs.start)
           = fst (tool_node_fallback Stubs.env_always_tool
                    ([HumanMessage "q"]
                       ++ [AIMessage EmptyString
                             ([Stubs.wiki_call] ++ Stubs.unknown_call :: [Stubs.web_call])])
                    (ext w1)))
  /\ tool_node Stubs.env_always_tool
       [HumanMessage "q";
        AIMessage EmptyString [Stubs.wiki_call; Stubs.unknown_call; Stubs.web_call]]
       Stubs.start
     = (Ok [ToolMessage "Alan Turing was a mathematician." "call_1";
            ToolMessage
              "Error: unknown_tool is not a valid tool, try one of [wikipedia, duckduckgo_search]."
              "call_3";
            ToolMessage "News." "call_2"],
        mkWorld (Stubs.mkCounters 0 3)
          [Line "   Searching Wikipedia for: Alan Turing";
           Line "   Using tool: unknown_tool"]).
Proof.
  split; [reflexivity | split; [reflexivity | split]].
  - apply (unregistered_name_hands_batch_to_fallback _ Stubs.env_always_tool
             [HumanMessage "q"] EmptyString
             [Stubs.wiki_call] Stubs.unknown_call [Stubs.web_call] Stubs.start);
      reflexivity.
  - reflexivity.
Defined.

Section RegisteredBatch.

Context {W : Type} (env : Env W).

(** When the loop comes to a registered call, it appends the message for
    the outcome of that call's executor and goes on with the calls that
    follow. *)
Lemma tool_node_after_registered_call (front : list BaseMessage) (content : string)
    (pre : list ToolCall) (c : ToolCall) (post : list ToolCall)
    (w w1 : world W) (outs_pre : list BaseMessage) :
  all_registered pre = true ->
  registered (tc_name c) = true ->
  tool_loop env (front ++ [AIMessage content (pre ++ c :: post)]) pre [] w
  = (Ok outs_pre, w1) ->
  tool_node env (front ++ [AIMessage content (pre ++ c :: post)]) w
  = tool_loop env (front ++ [AIMessage content (pre ++ c :: post)]) post
      (outs_pre ++ [answer_of c (fst (executor env (tc_name c) c (ext w1)))])
      (mkWorld (snd (executor env (tc_name c) c (ext w1)))
         (stdout w1 ++ search_line c
            :: error_lines c (fst (executor env (tc_name c) c (ext w1))))).
Proof.
  intros Rpre Rc Hpre.
  set (state := front ++ [AIMessage content (pre ++ c :: post)]) in *.
  destruct (tool_loop_app env state pre Rpre (c :: post) [] w)
    as (outs & w1' & H1 & _ & H3).
  rewrite Hpre in H1. inversion H1; subst outs w1'. clear H1.
  unfold state at 1. rewrite tool_node_snoc. fold state.
  rewrite H3. change ([] ++ outs_pre) with outs_pre.
  now apply tool_loop_cons_registered.
Qed.

(** With registered calls only behind it as well, the message stands in
    the returned batch at the position of its call. *)
Lemma tool_node_registered_at (front : list BaseMessage) (content : string)
    (pre : list ToolCall) (c : ToolCall) (post : list ToolCall)
    (w w1 : world W) (outs_pre : list BaseMessage) :
  all_registered pre = true ->
  registered (tc_name c) = true ->
  all_registered post = true ->
  tool_loop env (front ++ [AIMessage content (pre ++ c :: post)]) pre [] w
  = (Ok outs_pre, w1) ->
  exists outs_post w',
    tool_node env (front ++ [AIMessage content (pre ++ c :: post)]) w
    = (Ok (outs_pre
             ++ answer_of c (fst (executor env (tc_name c) c (ext w1))) :: outs_post), w')
    /\ Forall2 answers post outs_post.
Proof.
  intros Rpre Rc Rpost Hpre.
  rewrite (tool_node_after_registered_call front content pre c post w w1 outs_pre
             Rpre Rc Hpre).
  set (state := front ++ [AIMessage content (pre ++ c :: post)]).
  set (r := executor env (tc_name c) c (ext w1)).
  destruct (tool_loop_app env state post Rpost []
              (outs_pre ++ [answer_of c (fst r)])
              (mkWorld (snd r) (stdout w1 ++ search_line c :: error_lines c (fst r))))
    as (outs_post & w' & H4 & H5 & _).
  exists outs_post, w'. split; [| exact H5].
  rewrite H4. now rewrite <- app_assoc.
Qed.

End RegisteredBatch.

(** A failing tool, seen from the loop.  When the executor of a call raises,
    [tool_node] does not pass the
    exception on: the loop appends, for that call, a tool message with the
    call's id whose content is the error text ["Error: " + str(e)], and goes
    on with the calls that follow.  When those are registered too, the
    message stands in the returned batch at the position of its call and
    each later call is answered.  Whenever [tool_node] returns (which it
    does once the prebuilt [ToolNode] keeps its contract), the workflow
    appends the batch and goes on to [llm_agent_node]. *)
Theorem failing_tool_is_isolated :
  forall (W : Type) (env : Env W) (front : list BaseMessage) (content : string)
         (pre : list ToolCall) (c : ToolCall) (post : list ToolCall)
         (w w1 : world W) (outs_pre : list BaseMessage) (e : exn) (x : W),
    all_registered pre = true ->
    registered (tc_name c) = true ->
    tool_loop env (front ++ [AIMessage content (pre ++ c :: post)]) pre [] w
    = (Ok outs_pre, w1) ->
    executor env (tc_name c) c (ext w1) = (Raise e, x) ->
    (exists w2,
        tool_node env (front ++ [AIMessage content (pre ++ c :: post)]) w
        = tool_loop env (front ++ [AIMessage content (pre ++ c :: post)]) post
            (outs_pre ++ [ToolMessage ("Error: " +++ str_exn e) (tc_id c)]) w2)
    /\ (all_registered post = true ->
        exists outs_post w',
          tool_node env (front ++ [AIMessage content (pre ++ c :: post)]) w
          = (Ok (outs_pre ++ ToolMessage ("Error: " +++ str_exn e) (tc_id c) :: outs_post),
             w')
          /\ Forall2 answers post outs_post)
    /\ (ToolNode_contract env ->
        exists outs w',
          tool_node env (front ++ [AIMessage content (pre ++ c :: post)]) w = (Ok outs, w')
          /\ Forall2 answers (pre ++ c :: post) outs)
    /\ (forall outs w',
           tool_node env (front ++ [AIMessage content (pre ++ c :: post)]) w = (Ok outs, w') ->
           graph_step env N_tool_node (front ++ [AIMessage content (pre ++ c :: post)]) w
           = (Ok (NodeChunk N_tool_node outs, Node N_llm_agent_node,
                  (front ++ [AIMessage content (pre ++ c :: post)]) ++ outs), w')).
Proof.
  intros W env front content pre c post w w1 outs_pre e x Rpre Rc Hpre Hraise.
  repeat split.
  - rewrite (tool_node_after_registered_call env front content pre c post w w1 outs_pre
               Rpre Rc Hpre).
    rewrite Hraise. simpl. now eexists.
  - intros Rpost.
    destruct (tool_node_registered_at env front content pre c post w w1 outs_pre
                Rpre Rc Rpost Hpre) as (outs_post & w' & H & Hq).
    rewrite Hraise in H. simpl in H. now exists outs_post, w'.
  - intros contract. now apply tool_node_answers_all.
  - intros outs w'. apply graph_step_tool_node.
Qed.

(** A successful tool, seen from the loop.  When the executor of a call
    returns, the tool message the loop
    appends for that call is [str(output)] followed by the attribution of
    the tool that answered: ["\n\nSource: Wikipedia"] for the encyclopedia,
    ["\n\nSource: Web Search (DuckDuckGo)"] for the web search.  With
    registered calls only behind it, the message stands in the returned
    batch at the position of its call. *)
Theorem successful_tool_is_attributed :
  forall (W : Type) (env : Env W) (front : list BaseMessage) (content : string)
         (pre : list ToolCall) (c : ToolCall) (post : list ToolCall)
         (w w1 : world W) (outs_pre : list BaseMessage) (output : string) (x : W),
    all_registered pre = true ->
    registered (tc_name c) = true ->
    tool_loop env (front ++ [AIMessage content (pre ++ c :: post)]) pre [] w
    = (Ok outs_pre, w1) ->
    executor env (tc_name c) c (ext w1) = (Ok output, x) ->
    exists suffix,
      ((tc_name c = "wikipedia"
        /\ executor env (tc_name c) = wikipedia_tool env
        /\ suffix = nl +++ nl +++ "Source: Wikipedia")
       \/ (tc_name c = "duckduckgo_search"
           /\ executor env (tc_name c) = duckduckgo_tool env
           /\ suffix = nl +++ nl +++ "Source: Web Search (DuckDuckGo)"))
      /\ (exists w2,
             tool_node env (front ++ [AIMessage content (pre ++ c :: post)]) w
             = tool_loop env (front ++ [AIMessage content (pre ++ c :: post)]) post
                 (outs_pre ++ [ToolMessage (output +++ suffix) (tc_id c)]) w2)
      /\ (all_registered post = true ->
          exists outs_post w',
            tool_node env (front ++ [AIMessage content (pre ++ c :: post)]) w
            = (Ok (outs_pre ++ ToolMessage (output +++ suffix) (tc_id c) :: outs_post), w')).
Proof.
  intros W env front content pre c post w w1 outs_pre output x Rpre Rc Hpre Hok.
  exists (source_info (tc_name c)). repeat split.
  - unfold source_info, executor.
    destruct (registered_cases _ Rc) as [E | [E1 E2]].
    + left. rewrite E. apply String.eqb_eq in E. auto.
    + right. rewrite E1, E2. apply String.eqb_eq in E2. auto.
  - rewrite (tool_node_after_registered_call env front content pre c post w w1 outs_pre
               Rpre Rc Hpre).
    rewrite Hok. simpl. now eexists.
  - intros Rpost.
    destruct (tool_node_registered_at env front content pre c post w w1 outs_pre
                Rpre Rc Rpost Hpre) as (outs_post & w' & H & _).
    rewrite Hok in H. simpl in H. now exists outs_post, w'.
Qed.

Lemma failing_tool_is_isolated_witness :
  all_registered [Stubs.web_call] = true
  /\ registered (tc_name Stubs.wiki_call) = true
  /\ tool_loop Stubs.env_failing_wikipedia
       ([HumanMessage "q"]
          ++ [AIMessage EmptyString ([Stubs.web_call] ++ Stubs.wiki_call :: [Stubs.web_call])])
       [Stubs.web_call] [] Stubs.start
     = (Ok [ToolMessage ("News." +++ nl +++ nl +++ "Source: Web Search (DuckDuckGo)") "call_2"],
        mkWorld (Stubs.mkCounters 0 1) [Line "   Searching the web for: latest AI news"])
  /\ executor Stubs.env_failing_wikipedia (tc_name Stubs.wiki_call) Stubs.wiki_call
       (Stubs.mkCounters 0 1)
     = (Raise (Exception "wikipedia is unreachable"), Stubs.mkCounters 0 2)
  /\ tool_node Stubs.env_failing_wikipedia
       [HumanMessage "q";
        AIMessage EmptyString [Stubs.web_call; Stubs.wiki_call; Stubs.web_call]]
       Stubs.start
     = (Ok [ToolMessage ("News." +++ nl +++ nl +++ "Source: Web Search (DuckDuckGo)") "call_2";
            ToolMessage "Error: wikipedia is unreachable" "call_1";
            ToolMessage ("News." +++ nl +++ nl +++ "Source: Web Search (DuckDuckGo)") "call_2"],
        mkWorld (Stubs.mkCounters 0 3)
          [Line "   Searching the web for: latest AI news";
           Line "   Searching Wikipedia for: Alan Turing";
           Line "    Error using wikipedia: wikipedia is unreachable";
           Line "   Searching the web for: latest AI news"])
  /\ exists outs_post w',
       tool_node Stubs.env_failing_wikipedia
         ([HumanMessage "q"]
            ++ [AIMessage EmptyString
                  ([Stubs.web_call] ++ Stubs.wiki_call :: [Stubs.web_call])])
         Stubs.start
       = (Ok ([ToolMessage ("News." +++ nl +++ nl +++ "Source: Web Search (DuckDuckGo)")
                 "call_2"]
                ++ ToolMessage ("Error: " +++ str_exn (Exception "wikipedia is unreachable"))
                     (tc_id Stubs.wiki_call) :: outs_post), w')
       /\ Forall2 answers [Stubs.web_call] outs_post.
Proof.
  split; [reflexivity | split; [reflexivity | split; [reflexivity |]]].
  split; [reflexivity | split; [reflexivity |]].
  apply (failing_tool_is_isolated _ Stubs.env_failing_wikipedia
           [HumanMessage "q"] EmptyString
           [Stubs.web_call] Stubs.wiki_call [Stubs.web_call]
           Stubs.start
           (mkWorld (Stubs.mkCounters 0 1) [Line "   Searching the web for: latest AI news"])
           [ToolMessage ("News." +++ nl +++ nl +++ "Source: Web Search (DuckDuckGo)") "call_2"]
           (Exception "wikipedia is unreachable") (Stubs.mkCounters 0 2));
    reflexivity.
Defined.

Lemma successful_tool_is_attributed_witness :
  all_registered [Stubs.wiki_call] = true
  /\ registered (tc_name Stubs.web_call) = true
  /\ tool_loop Stubs.env_always_tool
       ([HumanMessage "q"]
          ++ [AIMessage EmptyString ([Stubs.wiki_call] ++ Stubs.web_call :: [])])
       [Stubs.wiki_call] [] Stubs.start
     = (Ok [ToolMessage ("Alan Turing was a mathematician." +++ nl +++ nl
                         +++ "Source: Wikipedia") "call_1"],
        mkWorld (Stubs.mkCounters 0 1) [Line "   Searching Wikipedia for: Alan Turing"])
  /\ executor Stubs.env_always_tool (tc_name Stubs.web_call) Stubs.web_call
       (Stubs.mkCounters 0 1)
     = (Ok "News.", Stubs.mkCounters 0 2)
  /\ exists suffix,
       ((tc_name Stubs.web_call = "wikipedia"
         /\ executor Stubs.env_always_tool (tc_name Stubs.web_call)
            = wikipedia_tool Stubs.env_always_tool
         /\ suffix = nl +++ nl +++ "Source: Wikipedia")
        \/ (tc_name Stubs.web_call = "duckduckgo_search"
            /\ executor Stubs.env_always_tool (tc_name Stubs.web_call)
               = duckduckgo_tool Stubs.env_always_tool
            /\ suffix = nl +++ nl +++ "Source: Web Search (DuckDuckGo)"))
       /\ (exists w2,
              tool_node Stubs.env_always_tool
                ([HumanMessage "q"]
                   ++ [AIMessage EmptyString ([Stubs.wiki_call] ++ Stubs.web_call :: [])])
                Stubs.start
              = tool_loop Stubs.env_always_tool
                  ([HumanMessage "q"]
                     ++ [AIMessage EmptyString ([Stubs.wiki_call] ++ Stubs.web_call :: [])])
                  []
                  ([ToolMessage ("Alan Turing was a mathematician." +++ nl +++ nl
                                 +++ "Source: Wikipedia") "call_1"]
                     ++ [ToolMessage ("News." +++ suffix) (tc_id Stubs.web_call)]) w2)
       /\ (all_registered [] = true ->
           exists outs_post w',
             tool_node Stubs.env_always_tool
               ([HumanMessage "q"]
                  ++ [AIMessage EmptyString ([Stubs.wiki_call] ++ Stubs.web_call :: [])])
               Stubs.start
             = (Ok ([ToolMessage ("Alan Turing was a mathematician." +++ nl +++ nl
                                  +++ "Source: Wikipedia") "call_1"]
                      ++ ToolMessage ("News." +++ suffix) (tc_id Stubs.web_call)
                         :: outs_post), w')).
Proof.
  split; [reflexivity | split; [reflexivity | split; [reflexivity | split; [reflexivity |]]]].
  apply (successful_tool_is_attributed _ Stubs.env_always_tool
           [HumanMessage "q"] EmptyString
           [Stubs.wiki_call] Stubs.web_call []
           Stubs.start
           (mkWorld (Stubs.mkCounters 0 1) [Line "   Searching Wikipedia for: Alan Turing"])
           [ToolMessage ("Alan Turing was a mathematician." +++ nl +++ nl
                         +++ "Source: Wikipedia") "call_1"]
           "News." (Stubs.mkCounters 0 2));
    reflexivity.
Defined.

(** ** The decision node and the steps of the workflow *)

Section Steps.

Context {W : Type} (env : Env W).

(** What the model is asked: the state, behind [system_message] when the
    state has exactly one entry. *)
Lemma llm_agent_node_eq (state : AgentState) (w : world W) :
  llm_agent_node env state w
  = match llm_with_tools env
            (if (List.length state =? 1)%nat then system_message :: state else state)
            (ext w) with
    | (Ok r, x) => (Ok [AIMessage (fst r) (snd r)], mkWorld x (stdout w))
    | (Raise e, x) => (Raise e, mkWorld x (stdout w))
    end.
Proof.
  unfold llm_agent_node, bind, call, ret. simpl app.
  destruct (llm_with_tools env _ (ext w)) as [[r | e] x]; reflexivity.
Qed.

Lemma llm_agent_node_ok_inv (state : AgentState) (w w' : world W)
    (update : list BaseMessage) :
  llm_agent_node env state w = (Ok update, w') ->
  exists c calls, update = [AIMessage c calls].
Proof.
  rewrite llm_agent_node_eq.
  destruct (llm_with_tools env _ (ext w)) as [[r | e] x]; intros H; inversion H.
  now exists (fst r), (snd r).
Qed.

Lemma graph_step_llm_inv (state state' : AgentState) (w w' : world W)
    (ch : chunk) (t : target) :
  graph_step env N_llm_agent_node state w = (Ok (ch, t, state'), w') ->
  exists c calls,
    llm_agent_node env state w = (Ok [AIMessage c calls], w')
    /\ ch = NodeChunk N_llm_agent_node [AIMessage c calls]
    /\ state' = state ++ [AIMessage c calls]
    /\ t = match calls with
           | [] => END
           | _ :: _ => Node N_tool_node
           end.
Proof.
  unfold graph_step. intros H.
  apply bind_inv_ok in H. destruct H as (update & w1 & Hnode & H).
  simpl run_node in Hnode.
  destruct (llm_agent_node_ok_inv _ _ _ _ Hnode) as (c & calls & ->).
  unfold reducer in H. simpl next_target in H.
  pose proof (route_agent_snoc W state (AIMessage c calls) w1) as Hr.
  unfold bind at 1 in H. unfold bind at 1 in H. rewrite Hr in H.
  unfold ret in H. inversion H; subst.
  exists c, calls. repeat split; try assumption.
  now destruct calls.
Qed.

Lemma graph_step_tool_inv (state state' : AgentState) (w w' : world W)
    (ch : chunk) (t : target) :
  graph_step env N_tool_node state w = (Ok (ch, t, state'), w') ->
  exists outs,
    tool_node env state w = (Ok outs, w')
    /\ ch = NodeChunk N_tool_node outs
    /\ state' = state ++ outs
    /\ t = Node N_llm_agent_node.
Proof.
  unfold graph_step. intros H.
  apply bind_inv_ok in H. destruct H as (update & w1 & Hnode & H).
  simpl in Hnode, H. unfold bind, ret in H. inversion H; subst.
  now exists update.
Qed.

(** Every step leaves the entries it found in place and adds its update
    behind them. *)
Lemma graph_step_appends (n : node_id) (state state' : AgentState)
    (w w' : world W) (ch : chunk) (t : target) :
  graph_step env n state w = (Ok (ch, t, state'), w') ->
  exists update, ch = NodeChunk n update /\ state' = state ++ update.
Proof.
  destruct n; intros H.
  - apply graph_step_llm_inv in H. destruct H as (c & calls & _ & -> & -> & _).
    now eexists.
  - apply graph_step_tool_inv in H. destruct H as (outs & _ & -> & -> & _).
    now eexists.
Qed.

(** Where a run can be: the query is still the first entry; the run is at
    its start or holds at least two entries; and [tool_node] is only
    entered behind an [AIMessage] that carries tool calls. *)
Lemma reachable_invariant (query : string) (t : target) (state : AgentState) :
  reachable env query t state ->
  (exists tail, state = HumanMessage query :: tail)
  /\ ((t = Node N_llm_agent_node /\ state = [HumanMessage query])
      \/ 2 <= List.length state)
  /\ (t = Node N_tool_node ->
      exists front c call calls, state = front ++ [AIMessage c (call :: calls)]).
Proof.
  induction 1 as [| n state w ch t state' w' Hreach IH Hstep].
  - repeat split.
    + now exists [].
    + now left.
    + discriminate.
  - destruct IH as ((tail & ->) & Hlen & _).
    destruct (graph_step_appends _ _ _ _ _ _ _ Hstep) as (update & _ & ->).
    split; [| split].
    + now exists (tail ++ update).
    + right. destruct n.
      * apply graph_step_llm_inv in Hstep.
        destruct Hstep as (c & calls & _ & _ & E & _).
        apply app_inv_head in E. subst update.
        rewrite length_app. simpl. lia.
      * destruct Hlen as [[Hn _] | Hlen]; [discriminate |].
        rewrite length_app. lia.
    + intros ->. destruct n.
      * apply graph_step_llm_inv in Hstep.
        destruct Hstep as (c & calls & _ & _ & E & Ht).
        destruct calls as [| call calls]; [discriminate |].
        rewrite E. now exists (HumanMessage query :: tail), c, call, calls.
      * apply graph_step_tool_inv in Hstep.
        destruct Hstep as (outs & _ & _ & _ & Ht). discriminate.
Qed.

(** A graph execution only passes through reachable positions. *)
Lemma run_graph_reachable (query : string) (limit : nat) :
  forall (t : target) (state final : AgentState) (w w' : world W),
    reachable env query t state ->
    run_graph env limit t state w = (Ok final, w') ->
    reachable env query END final.
Proof.
  induction limit as [| limit IH]; intros t state final w w' Hreach Hrun.
  - discriminate.
  - destruct t as [n |]; simpl in Hrun.
    + apply bind_inv_ok in Hrun.
      destruct Hrun as ([[ch t'] state'] & w1 & Hstep & Hrun).
      eapply IH; [| exact Hrun].
      eapply reach_step; eassumption.
    + inversion Hrun; subst. exact Hreach.
Qed.

End Steps.

(** C9.  [llm_agent_node] asks the model about the state, put behind the
    fixed [system_message] exactly when the state holds one entry.  What the
    workflow then adds to the state is the one [AIMessage] of the answer and
    nothing else, so the instruction never becomes part of the state.  In a
    run, the state holds one entry only at the first call. *)
Theorem llm_agent_node_prefixes_first_call_only :
  forall (W : Type) (env : Env W) (state : AgentState) (w : world W),
    (List.length state = 1 ->
     llm_agent_node env state w
     = bind (call (llm_with_tools env (system_message :: state)))
         (fun r => ret [AIMessage (fst r) (snd r)]) w)
    /\ (List.length state <> 1 ->
        llm_agent_node env state w
        = bind (call (llm_with_tools env state))
            (fun r => ret [AIMessage (fst r) (snd r)]) w)
    /\ (forall update w',
           llm_agent_node env state w = (Ok update, w') ->
           exists c calls, update = [AIMessage c calls])
    /\ (forall ch t state' w',
           graph_step env N_llm_agent_node state w = (Ok (ch, t, state'), w') ->
           exists c calls,
             ch = NodeChunk N_llm_agent_node [AIMessage c calls]
             /\ state' = state ++ [AIMessage c calls]
             /\ List.length state' = S (List.length state))
    /\ (forall query,
           reachable env query (Node N_llm_agent_node) state ->
           (List.length state = 1 <-> state = reducer [] [HumanMessage query])).
Proof.
  intros W env state w. repeat split.
  - intros H. unfold llm_agent_node. now rewrite H.
  - intros H. unfold llm_agent_node.
    apply Nat.eqb_neq in H. now rewrite H.
  - intros update w'. apply llm_agent_node_ok_inv.
  - intros ch t state' w' H.
    apply graph_step_llm_inv in H. destruct H as (c & calls & _ & -> & -> & _).
    exists c, calls. repeat split. rewrite length_app. simpl. lia.
  - intros H1.
    destruct (reachable_invariant env query _ _ H) as (_ & [[_ ->] | Hlen] & _).
    + reflexivity.
    + lia.
  - intros ->. reflexivity.
Qed.

(** C6.  Provided the prebuilt [ToolNode] keeps its contract, every step of
    a run leaves the entries of the state as they are, in place and in
    order, and adds at least one entry behind them: the one [AIMessage] of
    the decision node, or the tool messages of [tool_node].  So the state of
    a finished execution starts with the query and is longer than one
    entry. *)
Theorem conversation_is_append_only :
  forall (W : Type) (env : Env W),
    ToolNode_contract env ->
    forall (query : string),
      (forall n state w ch t state' w',
          reachable env query (Node n) state ->
          graph_step env n state w = (Ok (ch, t, state'), w') ->
          exists update,
            update <> []
            /\ state' = state ++ update
            /\ firstn (List.length state) state' = state
            /\ List.length state < List.length state'
            /\ ((n = N_llm_agent_node /\ exists c calls, update = [AIMessage c calls])
                \/ (n = N_tool_node
                    /\ Forall (fun m => exists text i, m = ToolMessage text i) update)))
      /\ (forall w final w',
             app_invoke env [HumanMessage query] w = (Ok final, w') ->
             exists tail, tail <> [] /\ final = HumanMessage query :: tail).
Proof.
  intros W env contract query. split.
  - intros n state w ch t state' w' Hreach Hstep.
    assert (Hgrow : forall update : list BaseMessage,
               update <> [] ->
               firstn (List.length state) (state ++ update) = state
               /\ List.length state < List.length (state ++ update)).
    { intros update Hne. split.
      - rewrite firstn_app, Nat.sub_diag, firstn_all. simpl. apply app_nil_r.
      - rewrite length_app. destruct update; [congruence | simpl; lia]. }
    destruct n.
    + apply graph_step_llm_inv in Hstep.
      destruct Hstep as (c & calls & _ & _ & -> & _).
      exists [AIMessage c calls].
      assert (Hne : [AIMessage c calls] <> []) by discriminate.
      destruct (Hgrow _ Hne) as [G1 G2].
      repeat split; try assumption. left. split; [reflexivity |]. now exists c, calls.
    + apply graph_step_tool_inv in Hstep.
      destruct Hstep as (outs & Hnode & _ & -> & _).
      destruct (reachable_invariant env query _ _ Hreach) as (_ & _ & Hlast).
      destruct (Hlast eq_refl) as (front & c & call & calls & E).
      rewrite E in Hnode.
      destruct (tool_node_answers_all env front c (call :: calls) w contract)
        as (outs' & w1 & Hnode' & Hans).
      rewrite Hnode in Hnode'. inversion Hnode'; subst outs' w1.
      exists outs.
      assert (Hne : outs <> []).
      { inversion Hans; discriminate. }
      destruct (Hgrow _ Hne) as [G1 G2].
      repeat split; try assumption. right. split; [reflexivity |].
      clear - Hans. induction Hans as [| c0 m cs ms (text & ->) _ IH]; constructor.
      * now exists text, (tc_id c0).
      * exact IH.
  - intros w final w' Hrun.
    assert (Hreach : reachable env query END final).
    { eapply run_graph_reachable; [apply reach_start | exact Hrun]. }
    destruct (reachable_invariant env query _ _ Hreach)
      as ((tail & ->) & [[Habs _] | Hlen] & _); [discriminate |].
    exists tail. split; [| reflexivity].
    destruct tail; [simpl in Hlen; lia | discriminate].
Qed.

Lemma conversation_is_append_only_witness :
  ToolNode_contract Stubs.env_always_tool
  /\ (forall n state w ch t state' w',
         reachable Stubs.env_always_tool "q" (Node n) state ->
         graph_step Stubs.env_always_tool n state w = (Ok (ch, t, state'), w') ->
         exists update,
           update <> []
           /\ state' = state ++ update
           /\ firstn (List.length state) state' = state
           /\ List.length state < List.length state'
           /\ ((n = N_llm_agent_node /\ exists c calls, update = [AIMessage c calls])
               \/ (n = N_tool_node
                   /\ Forall (fun m => exists text i, m = ToolMessage text i) update)))
  /\ (forall w final w',
         app_invoke Stubs.env_always_tool [HumanMessage "q"] w = (Ok final, w') ->
         exists tail, tail <> [] /\ final = HumanMessage "q" :: tail)
  /\ graph_step Stubs.env_always_tool N_llm_agent_node [HumanMessage "q"] Stubs.start
     = (Ok (NodeChunk N_llm_agent_node [AIMessage EmptyString [Stubs.wiki_call]],
            Node N_tool_node,
            [HumanMessage "q"; AIMessage EmptyString [Stubs.wiki_call]]),
        mkWorld (Stubs.mkCounters 1 0) []).
Proof.
  split; [apply stub_env_contract |].
  destruct (conversation_is_append_only _ Stubs.env_always_tool
              (stub_env_contract _ _ _ _) "q") as [H1 H2].
  split; [exact H1 | split; [exact H2 | reflexivity]].
Defined.

(** ** The body of the progress loop *)

Section StepCap.

Context {W : Type}.

Lemma report_step_eq (n : node_id) (update : list BaseMessage) (k : nat)
    (w : world W) :
  report_step (NodeChunk n update) k w
  = if (max_steps <? k + 1)%nat
    then (Ok (Break (k + 1)),
          mkWorld (ext w) (stdout w ++ [step_line n k; warning]))
    else (Ok (Continue (k + 1)), mkWorld (ext w) (stdout w ++ [step_line n k])).
Proof.
  unfold report_step.
  destruct n; unfold bind at 1; rewrite print_eq;
    destruct (max_steps <? k + 1)%nat; unfold bind, print, ret; simpl;
      rewrite <- ?app_assoc; reflexivity.
Qed.

End StepCap.

(** ** The two entry points *)

Section Blind.

Context {W : Type}.

Lemma blind_ret {A} (a : A) : blind (W := W) (ret a).
Proof. intros w1 w2. reflexivity. Qed.

Lemma blind_raise {A} (e : exn) : blind (W := W) (A := A) (raise e).
Proof. intros w1 w2. reflexivity. Qed.

Lemma blind_print (p : printed) : blind (W := W) (print p).
Proof. intros w1 w2. reflexivity. Qed.

Lemma blind_call {A} (f : W -> result A * W) :
  (forall x y, fst (f x) = fst (f y)) -> blind (call f).
Proof.
  intros H w1 w2. unfold call. specialize (H (ext w1) (ext w2)).
  destruct (f (ext w1)), (f (ext w2)). exact H.
Qed.

Lemma blind_bind {A B} (m : M W A) (k : A -> M W B) :
  blind m -> (forall a, blind (k a)) -> blind (bind m k).
Proof.
  intros Hm Hk w1 w2. unfold bind. specialize (Hm w1 w2).
  destruct (m w1) as [[a1 | e1] v1], (m w2) as [[a2 | e2] v2]; simpl in Hm;
    inversion Hm; subst; [apply Hk | reflexivity].
Qed.

Lemma blind_try_except {A} (body : M W A) (handler : exn -> M W A) :
  blind body -> (forall e, blind (handler e)) -> blind (try_except body handler).
Proof.
  intros Hm Hk w1 w2. unfold try_except. specialize (Hm w1 w2).
  destruct (body w1) as [[a1 | e1] v1], (body w2) as [[a2 | e2] v2]; simpl in Hm;
    inversion Hm; subst; [reflexivity | apply Hk].
Qed.

Lemma blind_ok {A} (m : M W A) (w1 w2 w1' : world W) (a : A) :
  blind m -> m w1 = (Ok a, w1') -> exists w2', m w2 = (Ok a, w2').
Proof.
  intros Hm H. specialize (Hm w1 w2). rewrite H in Hm. simpl in Hm.
  destruct (m w2) as [r w2']. simpl in Hm. subst r. now exists w2'.
Qed.

End Blind.

Section Determined.

Context {W : Type} (env : Env W).

Hypothesis determined : input_determined env.

Lemma blind_llm_agent_node (state : AgentState) : blind (llm_agent_node env state).
Proof.
  destruct determined as (Hllm & _).
  unfold llm_agent_node. apply blind_bind.
  - apply blind_call. apply Hllm.
  - intros r. apply blind_ret.
Qed.

Lemma blind_invoke_and_append (tool : ToolCall -> W -> result string * W)
    (c : ToolCall) (acc : list BaseMessage) :
  (forall x y, fst (tool c x) = fst (tool c y)) ->
  blind (invoke_and_append tool c acc).
Proof.
  intros H. unfold invoke_and_append. apply blind_try_except.
  - apply blind_bind; [now apply blind_call | intros; apply blind_ret].
  - intros e. apply blind_bind; [apply blind_print | intros; apply blind_ret].
Qed.

Lemma blind_tool_loop (state : AgentState) (calls : list ToolCall) :
  forall acc, blind (tool_loop env state calls acc).
Proof.
  destruct determined as (_ & Hwiki & Hddg & Hfall).
  induction calls as [| c calls IH]; intros acc; simpl.
  - apply blind_ret.
  - destruct (tc_name c =? "wikipedia");
      [| destruct (tc_name c =? "duckduckgo_search")].
    + apply blind_bind; [apply blind_print | intros _].
      apply blind_bind; [apply blind_invoke_and_append; apply Hwiki | apply IH].
    + apply blind_bind; [apply blind_print | intros _].
      apply blind_bind; [apply blind_invoke_and_append; apply Hddg | apply IH].
    + apply blind_bind; [apply blind_print | intros _].
      apply blind_call. apply Hfall.
Qed.

Lemma blind_last_item (xs : list BaseMessage) : blind (W := W) (last_item xs).
Proof.
  unfold last_item. destruct (rev xs); [apply blind_raise | apply blind_ret].
Qed.

Lemma blind_graph_step (n : node_id) (state : AgentState) :
  blind (graph_step env n state).
Proof.
  unfold graph_step. apply blind_bind.
  - destruct n; simpl.
    + apply blind_llm_agent_node.
    + unfold tool_node. apply blind_bind; [apply blind_last_item | intros m].
      apply blind_bind.
      * destruct m; simpl; [apply blind_raise | apply blind_ret | apply blind_raise].
      * intros calls. apply blind_tool_loop.
  - intros update. apply blind_bind; [| intros; apply blind_ret].
    destruct n; simpl.
    + apply blind_bind; [| intros; apply blind_ret].
      unfold route_agent. apply blind_bind; [apply blind_last_item | intros m].
      destruct (has_tool_calls m); apply blind_ret.
    + apply blind_ret.
Qed.

(** A graph execution ends the same way wherever it is started. *)
Lemma blind_run_graph (limit : nat) :
  forall (t : target) (state : AgentState), blind (run_graph env limit t state).
Proof.
  induction limit as [| limit IH]; intros [n |] state; simpl;
    try apply blind_ret; try apply blind_raise.
  apply blind_bind; [apply blind_graph_step |].
  intros [[ch t'] state']. apply IH.
Qed.

(** When the graph runs to [END], a [for] loop over its stream, whose body
    does not raise, runs through as well (or breaks). *)
Lemma stream_for_completes {L : Type} (body : chunk -> L -> M W (control L)) :
  (forall ch s w, exists c w', body ch s w = (Ok c, w')) ->
  forall (limit : nat) (t : target) (state final : AgentState)
         (s : L) (w wr wr' : world W),
    run_graph env limit t state wr = (Ok final, wr') ->
    exists s' w', stream_for env limit t state body s w = (Ok s', w').
Proof.
  intros Hbody.
  induction limit as [| limit IH]; intros t state final s w wr wr' Hrun.
  - discriminate.
  - destruct t as [n |]; simpl in Hrun; simpl.
    + apply bind_inv_ok in Hrun.
      destruct Hrun as ([[ch t'] state'] & wr1 & Hstep & Hrun).
      destruct (blind_ok _ wr w _ _ (blind_graph_step n state) Hstep) as (w1 & Hstep').
      rewrite (bind_ok _ _ _ _ _ Hstep').
      destruct (Hbody ch s w1) as (c & w2 & Hc).
      rewrite (bind_ok _ _ _ _ _ Hc).
      destruct c as [s' | s'].
      * eapply IH. exact Hrun.
      * now eexists; eexists.
    + destruct (Hbody (EndChunk state) s w) as (c & w' & Hc).
      rewrite (bind_ok _ _ _ _ _ Hc). now eexists; eexists.
Qed.

Lemma report_step_ok (ch : chunk) (k : nat) (w : world W) :
  exists c w', report_step ch k w = (Ok c, w').
Proof.
  destruct ch as [n update | final].
  - rewrite (report_step_eq n update k w).
    destruct (max_steps <? k + 1)%nat; now eexists; eexists.
  - now eexists; eexists.
Qed.

End Determined.

Lemma run_calls_determined (W : Type)
    (wikipedia duckduckgo : ToolCall -> W -> result string * W) :
  (forall c x y, fst (wikipedia c x) = fst (wikipedia c y)) ->
  (forall c x y, fst (duckduckgo c x) = fst (duckduckgo c y)) ->
  forall calls x y,
    fst (Stubs.run_calls wikipedia duckduckgo calls x)
    = fst (Stubs.run_calls wikipedia duckduckgo calls y).
Proof.
  intros Hwiki Hddg.
  assert (Hone : forall (tool : ToolCall -> W -> result string * W) c x y,
             fst (tool c x) = fst (tool c y) ->
             fst (Stubs.run_one tool c x) = fst (Stubs.run_one tool c y)).
  { intros tool c x y H. unfold Stubs.run_one.
    destruct (tool c x) as [[o1 | e1] x1], (tool c y) as [[o2 | e2] y1];
      simpl in H; inversion H; reflexivity. }
  induction calls as [| c calls IH]; intros x y; simpl.
  - reflexivity.
  - destruct (tc_name c =? "wikipedia");
      [| destruct (tc_name c =? "duckduckgo_search")].
    + pose proof (Hone wikipedia c x y (Hwiki c x y)) as H.
      destruct (Stubs.run_one wikipedia c x) as [m1 x1],
               (Stubs.run_one wikipedia c y) as [m2 y1].
      simpl in H. subst m2. specialize (IH x1 y1).
      destruct (Stubs.run_calls wikipedia duckduckgo calls x1),
               (Stubs.run_calls wikipedia duckduckgo calls y1).
      simpl in *. now subst.
    + pose proof (Hone duckduckgo c x y (Hddg c x y)) as H.
      destruct (Stubs.run_one duckduckgo c x) as [m1 x1],
               (Stubs.run_one duckduckgo c y) as [m2 y1].
      simpl in H. subst m2. specialize (IH x1 y1).
      destruct (Stubs.run_calls wikipedia duckduckgo calls x1),
               (Stubs.run_calls wikipedia duckduckgo calls y1).
      simpl in *. now subst.
    + specialize (IH x y).
      destruct (Stubs.run_calls wikipedia duckduckgo calls x),
               (Stubs.run_calls wikipedia duckduckgo calls y).
      simpl in *. now subst.
Qed.

Lemma search_once_stub_determined : input_determined Stubs.env_search_once.
Proof.
  repeat split; simpl.
  - intros ms x y. unfold Stubs.llm_search_once.
    now destruct (existsb Stubs.is_tool_message ms).
  - intros st x y. unfold Stubs.ToolNode_reference.
    destruct (rev st) as [| [c | c calls | c i] rest]; try reflexivity.
    pose proof (run_calls_determined _
                  (Stubs.text_tool "Alan Turing was a mathematician.")
                  (Stubs.text_tool "News.")
                  (fun _ _ _ => eq_refl) (fun _ _ _ => eq_refl) calls x y) as H.
    destruct (Stubs.run_calls _ _ calls x), (Stubs.run_calls _ _ calls y).
    simpl in *. now subst.
Qed.

(** * Further properties of the program *)

(** ** How [tool_node] is entered, and what it uses *)

(** X2.  Called on its own, [tool_node] raises [IndexError] on an empty
    state and [AttributeError] when the last message is no [AIMessage]
    ([route_agent] raises [IndexError] on an empty state as well), each time
    printing nothing; on an [AIMessage] without tool calls it returns no
    message.  The workflow never calls it so: whenever a run is about to
    enter [tool_node], the state ends in an [AIMessage] with at least one
    tool call, and [tool_node] goes straight to its loop over these calls. *)
Theorem tool_node_is_entered_behind_tool_calls :
  forall (W : Type) (env : Env W) (w : world W),
    tool_node env [] w = (Raise IndexError, w)
    /\ route_agent [] w = (Raise IndexError, w)
    /\ (forall front c,
           tool_node env (front ++ [HumanMessage c]) w
           = (Raise (AttributeError "HumanMessage"), w))
    /\ (forall front c i,
           tool_node env (front ++ [ToolMessage c i]) w
           = (Raise (AttributeError "ToolMessage"), w))
    /\ (forall front c, tool_node env (front ++ [AIMessage c []]) w = (Ok [], w))
    /\ (forall query state,
           reachable env query (Node N_tool_node) state ->
           exists front c call calls,
             state = front ++ [AIMessage c (call :: calls)]
             /\ tool_node env state w = tool_loop env state (call :: calls) [] w).
Proof.
  intros W env w. repeat split.
  - intros front c. unfold tool_node.
    now rewrite (bind_ok _ _ _ _ _ (last_item_snoc front (HumanMessage c) w)).
  - intros front c i. unfold tool_node.
    now rewrite (bind_ok _ _ _ _ _ (last_item_snoc front (ToolMessage c i) w)).
  - intros front c. now rewrite tool_node_snoc.
  - intros query state Hreach.
    destruct (reachable_invariant env query _ _ Hreach) as (_ & _ & Hlast).
    destruct (Hlast eq_refl) as (front & c & call & calls & ->).
    exists front, c, call, calls. split; [reflexivity | apply tool_node_snoc].
Qed.

(** X3.  [tool_node] never asks the model and never looks at the recursion
    limit; and on a batch of registered names it never turns to the
    fallback: with the same two tools, it does the same whatever the rest of
    the environment is. *)
Theorem tool_node_uses_only_what_it_dispatches_to :
  forall (W : Type) (env env' : Env W) (front : list BaseMessage) (content : string)
         (calls : list ToolCall) (w : world W),
    wikipedia_tool env = wikipedia_tool env' ->
    duckduckgo_tool env = duckduckgo_tool env' ->
    (all_registered calls = true \/ tool_node_fallback env = tool_node_fallback env') ->
    tool_node env (front ++ [AIMessage content calls]) w
    = tool_node env' (front ++ [AIMessage content calls]) w.
Proof.
  intros W env env' front content calls w Hwiki Hddg Hcase.
  rewrite !tool_node_snoc.
  generalize (front ++ [AIMessage content calls]) as state. intros state.
  assert (Hexec : forall name, executor env name = executor env' name).
  { intros name. unfold executor. now rewrite Hwiki, Hddg. }
  generalize (@nil BaseMessage) as acc. revert w Hcase.
  induction calls as [| c calls IH]; intros w Hcase acc.
  - reflexivity.
  - destruct (registered (tc_name c)) eqn:Rc.
    + rewrite !(tool_loop_cons_registered _ state c calls acc w Rc).
      rewrite Hexec. apply IH.
      destruct Hcase as [R | Hf]; [left | now right].
      simpl in R. now rewrite Rc in R.
    + rewrite !(tool_loop_cons_unregistered _ state c calls acc w Rc).
      destruct Hcase as [R | Hf].
      * simpl in R. rewrite Rc in R. discriminate.
      * now rewrite Hf.
Qed.

Lemma tool_node_uses_only_what_it_dispatches_to_witness :
  wikipedia_tool Stubs.env_always_tool = wikipedia_tool SessionStubs.env_key_error
  /\ duckduckgo_tool Stubs.env_always_tool = duckduckgo_tool SessionStubs.env_key_error
  /\ all_registered [Stubs.wiki_call; Stubs.web_call] = true
  /\ tool_node Stubs.env_always_tool
       ([HumanMessage "q"] ++ [AIMessage EmptyString [Stubs.wiki_call; Stubs.web_call]])
       Stubs.start
     = tool_node SessionStubs.env_key_error
         ([HumanMessage "q"] ++ [AIMessage EmptyString [Stubs.wiki_call; Stubs.web_call]])
         Stubs.start.
Proof.
  split; [reflexivity | split; [reflexivity | split; [reflexivity |]]].
  apply (tool_node_uses_only_what_it_dispatches_to _ Stubs.env_always_tool
           SessionStubs.env_key_error [HumanMessage "q"] EmptyString
           [Stubs.wiki_call; Stubs.web_call] Stubs.start);
    [reflexivity | reflexivity | left; reflexivity].
Defined.

(** ** How an execution of the graph ends *)

Section Endings.

Context {W : Type} (env : Env W).

(** A run is over only behind an [AIMessage] without tool calls. *)
Lemma reachable_END (query : string) (state : AgentState) :
  reachable env query END state ->
  exists front c, state = front ++ [AIMessage c []].
Proof.
  intros H. inversion H as [| n st w ch t st' w' Hreach Hstep]; subst.
  destruct n.
  - apply graph_step_llm_inv in Hstep.
    destruct Hstep as (c & calls & _ & _ & -> & Ht).
    destruct calls; [| discriminate]. now exists st, c.
  - apply graph_step_tool_inv in Hstep.
    destruct Hstep as (outs & _ & _ & _ & Ht). discriminate.
Qed.

Lemma final_state_shape (query : string) (final : AgentState) :
  reachable env query END final ->
  exists middle c, final = HumanMessage query :: middle ++ [AIMessage c []].
Proof.
  intros H.
  destruct (reachable_END query final H) as (front & c & E).
  destruct (reachable_invariant env query _ _ H) as ((tail & E') & _ & _).
  rewrite E in E'. destruct front as [| a front]; simpl in E'.
  - inversion E'.
  - inversion E'; subst. now exists front, c.
Qed.

Lemma app_invoke_final_shape (query : string) (w w' : world W) (final : AgentState) :
  app_invoke env [HumanMessage query] w = (Ok final, w') ->
  exists middle c, final = HumanMessage query :: middle ++ [AIMessage c []].
Proof.
  intros H. apply final_state_shape.
  eapply run_graph_reachable; [apply reach_start | exact H].
Qed.

End Endings.

(** X4.  The final state that [app.invoke] returns starts with the query
    and ends with an [AIMessage] that carries no tool call: the answer the
    entry points print is always the content of such a message, never the
    query or a tool's output. *)
Theorem final_state_ends_with_an_answer :
  forall (W : Type) (env : Env W) (query : string) (w w' : world W)
         (final : AgentState),
    app_invoke env [HumanMessage query] w = (Ok final, w') ->
    exists middle c,
      final = HumanMessage query :: middle ++ [AIMessage c []]
      /\ last_item final w' = (Ok (AIMessage c []), w').
Proof.
  intros W env query w w' final H.
  destruct (app_invoke_final_shape env query w w' final H) as (middle & c & ->).
  exists middle, c. split; [reflexivity |].
  rewrite app_comm_cons. apply last_item_snoc.
Qed.

Lemma final_state_ends_with_an_answer_witness :
  app_invoke Stubs.env_search_once [HumanMessage "latest AI news"] Stubs.start
  = (Ok [HumanMessage "latest AI news";
         AIMessage EmptyString [Stubs.web_call];
         ToolMessage ("News." +++ nl +++ nl +++ "Source: Web Search (DuckDuckGo)") "call_2";
         AIMessage "Here is the latest AI news." []],
     mkWorld (Stubs.mkCounters 2 1) [Line "   Searching the web for: latest AI news"])
  /\ exists middle c,
       [HumanMessage "latest AI news";
        AIMessage EmptyString [Stubs.web_call];
        ToolMessage ("News." +++ nl +++ nl +++ "Source: Web Search (DuckDuckGo)") "call_2";
        AIMessage "Here is the latest AI news." []]
       = HumanMessage "latest AI news" :: middle ++ [AIMessage c []]
       /\ last_item
            [HumanMessage "latest AI news";
             AIMessage EmptyString [Stubs.web_call];
             ToolMessage ("News." +++ nl +++ nl +++ "Source: Web Search (DuckDuckGo)")
               "call_2";
             AIMessage "Here is the latest AI news." []]
            (mkWorld (Stubs.mkCounters 2 1)
               [Line "   Searching the web for: latest AI news"])
          = (Ok (AIMessage c []),
             mkWorld (Stubs.mkCounters 2 1)
               [Line "   Searching the web for: latest AI news"]).
Proof.
  split; [reflexivity |].
  apply (final_state_ends_with_an_answer _ Stubs.env_search_once
           "latest AI news" Stubs.start).
  reflexivity.
Defined.

(** X6.  When the model fails at the first decision, nothing else is
    called and the failure leaves all three ways into the graph as it is:
    [app.invoke] and both entry points raise the model's exception, the
    entry points having printed their header only. *)
Theorem first_decision_failure_propagates :
  forall (W : Type) (env : Env W) (query : string) (w : world W) (e : exn) (x : W),
    llm_with_tools env [system_message; HumanMessage query] (ext w) = (Raise e, x) ->
    1 <= recursion_limit env ->
    app_invoke env [HumanMessage query] w = (Raise e, mkWorld x (stdout w))
    /\ run_research_agent env query w
       = (Raise e, mkWorld x (stdout w ++ [Line (nl +++ "Question: " +++ query); rule]))
    /\ run_research_agent_verbose env query w
       = (Raise e,
          mkWorld x
            (stdout w
               ++ [Line (nl +++ "--- Running Research Agent for: '" +++ query
                         +++ "' ---" +++ nl)])).
Proof.
  intros W env query w e x Hllm Hlimit.
  assert (Hstep : forall out,
             graph_step env N_llm_agent_node [HumanMessage query] (mkWorld (ext w) out)
             = (Raise e, mkWorld x out)).
  { intros out. unfold graph_step. simpl run_node.
    unfold bind at 1. rewrite llm_agent_node_eq. simpl.
    now rewrite Hllm. }
  unfold run_research_agent, run_research_agent_verbose, app_invoke, app_stream_for.
  destruct (recursion_limit env) as [| limit]; [lia |].
  simpl. repeat split.
  - destruct w as [x0 out]. simpl in *.
    now rewrite (bind_raise _ _ _ _ _ (Hstep out)).
  - unfold bind at 1. rewrite print_eq.
    unfold bind at 1. rewrite print_eq. simpl ext. simpl stdout.
    unfold bind at 1.
    rewrite (bind_raise _ _ _ _ _ (Hstep _)).
    now rewrite <- app_assoc.
  - unfold bind at 1. rewrite print_eq. simpl ext. simpl stdout.
    unfold bind at 1.
    now rewrite (bind_raise _ _ _ _ _ (Hstep _)).
Qed.

Lemma first_decision_failure_propagates_witness :
  llm_with_tools SessionStubs.env_llm_down [system_message; HumanMessage "q"]
    (ext Stubs.start)
  = (Raise (Exception "503 service unavailable"), Stubs.mkCounters 1 0)
  /\ 1 <= recursion_limit SessionStubs.env_llm_down
  /\ app_invoke SessionStubs.env_llm_down [HumanMessage "q"] Stubs.start
     = (Raise (Exception "503 service unavailable"),
        mkWorld (Stubs.mkCounters 1 0) (stdout Stubs.start))
  /\ run_research_agent SessionStubs.env_llm_down "q" Stubs.start
     = (Raise (Exception "503 service unavailable"),
        mkWorld (Stubs.mkCounters 1 0)
          (stdout Stubs.start ++ [Line (nl +++ "Question: " +++ "q"); rule]))
  /\ run_research_agent_verbose SessionStubs.env_llm_down "q" Stubs.start
     = (Raise (Exception "503 service unavailable"),
        mkWorld (Stubs.mkCounters 1 0)
          (stdout Stubs.start
             ++ [Line (nl +++ "--- Running Research Agent for: '" +++ "q"
                       +++ "' ---" +++ nl)])).
Proof.
  split; [reflexivity | split; [vm_compute; lia |]].
  apply (first_decision_failure_propagates _ SessionStubs.env_llm_down "q" Stubs.start
           (Exception "503 service unavailable") (Stubs.mkCounters 1 0)).
  - reflexivity.
  - vm_compute. lia.
Defined.

(** ** The progress loop, whatever the model does *)

Section ProgressLoop.

Context {W : Type} (env : Env W).

Lemma progress_reaches (n k : nat) (t t' : target) (state state' : AgentState)
    (w w' : world W) :
  progress env n k t state w t' state' w' -> reaches env n t state t' state'.
Proof.
  induction 1 as [| n k nd state w update t1 state1 w1 t2 state2 w2 Hstep _ IH].
  - constructor.
  - econstructor; [exact Hstep | exact IH].
Qed.

Lemma stream_report_progress (limit : nat) :
  forall (t : target) (state : AgentState) (k k' : nat) (w w' : world W),
    k <= max_steps ->
    stream_for env limit t state report_step k w = (Ok k', w') ->
    exists t' final w'',
      progress env (k' - k) k t state w t' final w''
      /\ k <= k'
      /\ ((t' = END /\ k' <= max_steps /\ w' = w'')
          \/ (k' = S max_steps
              /\ w' = mkWorld (ext w'') (stdout w'' ++ [warning]))).
Proof.
  induction limit as [| limit IH]; intros t state k k' w w' Hk H.
  - discriminate.
  - destruct t as [n |]; simpl in H.
    + apply bind_inv_ok in H. destruct H as ([[ch t1] state1] & w1 & Hstep & H).
      destruct (graph_step_appends env _ _ _ _ _ _ _ Hstep) as (update & -> & _).
      pose proof (report_step_eq n update k w1) as Hbody.
      destruct (Nat.ltb_spec max_steps (k + 1)) as [Hcap | Hcap];
        rewrite (bind_ok _ _ _ _ _ Hbody) in H.
      * inversion H; subst.
        exists t1, state1, (mkWorld (ext w1) (stdout w1 ++ [step_line n k])).
        replace (k + 1 - k) with 1 by lia.
        split; [| split; [lia |]].
        -- econstructor; [exact Hstep | constructor].
        -- right. split; [lia |]. simpl. now rewrite <- app_assoc.
      * destruct (IH t1 state1 (k + 1) k' _ w' Hcap H)
          as (t' & final & w'' & Hr & Hle & Hcases).
        exists t', final, w''.
        replace (k' - k) with (S (k' - (k + 1))) by lia.
        split; [| split; [lia | exact Hcases]].
        econstructor; [exact Hstep | exact Hr].
    + inversion H; subst.
      exists END, state, w'. rewrite Nat.sub_diag.
      split; [constructor | split; [lia |]]. left. auto.
Qed.

End ProgressLoop.

(** The two nodes take turns: from [llm_agent_node], an even number of
    steps leads back to it, an odd number to [tool_node] or to [END]. *)
Lemma reaches_alternates (W : Type) (env : Env W) (k : nat) (t t' : target)
    (state state' : AgentState) :
  reaches env k t state t' state' ->
  match t with
  | Node N_llm_agent_node =>
      if Nat.even k then t' = Node N_llm_agent_node
      else t' = END \/ t' = Node N_tool_node
  | Node N_tool_node =>
      if Nat.even k then t' = END \/ t' = Node N_tool_node
      else t' = Node N_llm_agent_node
  | END => k = 0 /\ t' = END
  end.
Proof.
  induction 1 as [t state | n state w ch t1 state1 w1 k t2 state2 Hstep Hr IH].
  - destruct t as [[|] |]; simpl; auto.
  - rewrite Nat.even_succ, <- Nat.negb_even.
    destruct n.
    + apply graph_step_llm_inv in Hstep.
      destruct Hstep as (c & calls & _ & _ & _ & ->).
      destruct calls as [| call calls].
      * destruct IH as [-> ->]. simpl. now left.
      * destruct (Nat.even k); simpl; auto.
    + apply graph_step_tool_inv in Hstep.
      destruct Hstep as (outs & _ & _ & _ & ->).
      destruct (Nat.even k); simpl; auto.
Qed.

(** X8.  Whatever the model does, the progress loop of
    [run_research_agent] executes at most [max_steps] = 10 nodes of the
    graph.  When it returns, the nodes it has executed, one after the other
    from the entry point in the world it was started in, each followed by
    its progress line, are one fewer than its counter, and one of two things
    has happened: the run has come to [END], after an odd number of nodes
    below ten, and nothing else was done; or exactly ten nodes have run, the
    warning was printed behind the tenth progress line, and the run was not
    over, the graph being about to ask the model again. *)
Theorem progress_loop_runs_at_most_max_steps :
  forall (W : Type) (env : Env W) (query : string) (w w' : world W) (k' : nat),
    app_stream_for env [HumanMessage query] report_step 1 w = (Ok k', w') ->
    exists t final w'',
      progress env (k' - 1) 1 (Node entry_point) [HumanMessage query] w t final w''
      /\ k' - 1 <= max_steps
      /\ ((t = END /\ k' - 1 < max_steps /\ Nat.odd (k' - 1) = true /\ w' = w'')
          \/ (t = Node N_llm_agent_node
              /\ k' - 1 = max_steps
              /\ w' = mkWorld (ext w'') (stdout w'' ++ [warning]))).
Proof.
  intros W env query w w' k' H.
  unfold app_stream_for in H.
  assert (H1 : 1 <= max_steps) by (unfold max_steps; lia).
  destruct (stream_report_progress env _ _ _ _ _ _ _ H1 H)
    as (t & final & w'' & Hr & Hle & Hcases).
  exists t, final, w''. split; [exact Hr |].
  pose proof (reaches_alternates W env _ _ _ _ _ (progress_reaches env _ _ _ _ _ _ _ _ Hr))
    as Halt.
  unfold entry_point in Halt.
  destruct Hcases as [(Ht & Hk & Hw) | [Hk Hout]].
  - split; [lia |]. left. split; [exact Ht |]. split; [lia |].
    split; [| exact Hw].
    rewrite <- Nat.negb_even. subst t.
    destruct (Nat.even (k' - 1)); [discriminate | reflexivity].
  - split; [lia |]. right.
    replace (k' - 1) with max_steps in Halt by lia.
    split; [exact Halt |]. split; [lia | exact Hout].
Qed.

Lemma progress_loop_runs_at_most_max_steps_witness :
  app_stream_for Stubs.env_search_once [HumanMessage "latest AI news"] report_step 1
    Stubs.start
  = (Ok 4,
     mkWorld (Stubs.mkCounters 2 1)
       [Line "Step 1: LLM is analyzing your question...";
        Line "   Searching the web for: latest AI news";
        Line "Step 2: Gathering information from sources...";
        Line "Step 3: LLM is analyzing your question..."])
  /\ exists t final w'',
       progress Stubs.env_search_once (4 - 1) 1 (Node entry_point)
         [HumanMessage "latest AI news"] Stubs.start t final w''
       /\ 4 - 1 <= max_steps
       /\ ((t = END /\ 4 - 1 < max_steps /\ Nat.odd (4 - 1) = true
            /\ mkWorld (Stubs.mkCounters 2 1)
                 [Line "Step 1: LLM is analyzing your question...";
                  Line "   Searching the web for: latest AI news";
                  Line "Step 2: Gathering information from sources...";
                  Line "Step 3: LLM is analyzing your question..."]
               = w'')
           \/ (t = Node N_llm_agent_node
               /\ 4 - 1 = max_steps
               /\ mkWorld (Stubs.mkCounters 2 1)
                    [Line "Step 1: LLM is analyzing your question...";
                     Line "   Searching the web for: latest AI news";
                     Line "Step 2: Gathering information from sources...";
                     Line "Step 3: LLM is analyzing your question..."]
                  = mkWorld (ext w'') (stdout w'' ++ [warning]))).
Proof.
  split; [vm_compute; reflexivity |].
  apply (progress_loop_runs_at_most_max_steps _ Stubs.env_search_once
           "latest AI news" Stubs.start).
  vm_compute. reflexivity.
Defined.

(** ** Runs that end after one or three steps *)

Section ShortRuns.

Context {W : Type} (env : Env W).

Lemma run_research_agent_eq (query : string) (w : world W) :
  run_research_agent env query w
  = bind (app_stream_for env [HumanMessage query] report_step 1)
      (fun _ => final_report env [HumanMessage query])
      (mkWorld (ext w) (stdout w ++ [Line (nl +++ "Question: " +++ query); rule])).
Proof.
  unfold run_research_agent.
  unfold bind at 1. rewrite print_eq.
  unfold bind at 1. rewrite print_eq.
  cbn [ext stdout]. now rewrite <- app_assoc.
Qed.

Lemma final_report_ok (initial front : AgentState) (m : BaseMessage)
    (w w' : world W) :
  app_invoke env initial w = (Ok (front ++ [m]), w') ->
  final_report env initial w
  = (Ok tt, mkWorld (ext w') (stdout w' ++ [rule; Line ("Answer: " +++ content m); rule])).
Proof.
  intros H. unfold final_report, try_except.
  rewrite (bind_ok _ _ _ _ _ H).
  unfold bind at 1. rewrite print_eq.
  rewrite (bind_ok _ _ _ _ _ (last_item_snoc front m _)).
  unfold bind at 1. rewrite !print_eq. cbn [ext stdout].
  now rewrite <- !app_assoc.
Qed.

Lemma final_report_raise (initial : AgentState) (e : exn) (w w' : world W) :
  app_invoke env initial w = (Raise e, w') ->
  final_report env initial w
  = (Ok tt,
     mkWorld (ext w')
       (stdout w' ++ [rule; Line ("Error getting final answer: " +++ str_exn e); rule])).
Proof.
  intros H. unfold final_report, try_except.
  rewrite (bind_raise _ _ _ _ _ H).
  unfold bind at 1. rewrite print_eq.
  unfold bind at 1. rewrite !print_eq. cbn [ext stdout].
  now rewrite <- !app_assoc.
Qed.

Lemma stream_for_break (limit : nat) (n : node_id) (state state' : AgentState)
    (update : list BaseMessage) (t' : target) (k : nat) (w w1 : world W) :
  graph_step env n state w = (Ok (NodeChunk n update, t', state'), w1) ->
  max_steps < k + 1 ->
  stream_for env (S limit) (Node n) state report_step k w
  = (Ok (k + 1), mkWorld (ext w1) (stdout w1 ++ [step_line n k; warning])).
Proof.
  intros Hstep Hk. simpl stream_for.
  rewrite (bind_ok _ _ _ _ _ Hstep).
  pose proof (report_step_eq n update k w1) as Hbody.
  apply Nat.ltb_lt in Hk. rewrite Hk in Hbody.
  now rewrite (bind_ok _ _ _ _ _ Hbody).
Qed.

(** A decision step, given what the model answers. *)
Lemma graph_step_llm_ok (state : AgentState) (w : world W) (c : string)
    (calls : list ToolCall) (x : W) :
  llm_with_tools env
    (if (List.length state =? 1)%nat then system_message :: state else state) (ext w)
  = (Ok (c, calls), x) ->
  graph_step env N_llm_agent_node state w
  = (Ok (NodeChunk N_llm_agent_node [AIMessage c calls],
         match calls with
         | [] => END
         | _ :: _ => Node N_tool_node
         end,
         state ++ [AIMessage c calls]),
     mkWorld x (stdout w)).
Proof.
  intros H.
  assert (Hnode : llm_agent_node env state w
                  = (Ok [AIMessage c calls], mkWorld x (stdout w))).
  { rewrite llm_agent_node_eq, H. reflexivity. }
  unfold graph_step. simpl run_node.
  rewrite (bind_ok _ _ _ _ _ Hnode). unfold reducer. simpl next_target.
  pose proof (route_agent_snoc W state (AIMessage c calls) (mkWorld x (stdout w))) as Hr.
  unfold bind at 1. unfold bind at 1. rewrite Hr.
  now destruct calls.
Qed.

(** A tool step on a single registered call, given what its executor
    returns. *)
Lemma graph_step_single_call (front : list BaseMessage) (c : string)
    (call : ToolCall) (w : world W) (output : string) (x : W) :
  registered (tc_name call) = true ->
  executor env (tc_name call) call (ext w) = (Ok output, x) ->
  graph_step env N_tool_node (front ++ [AIMessage c [call]]) w
  = (Ok (NodeChunk N_tool_node
           [ToolMessage (output +++ source_info (tc_name call)) (tc_id call)],
         Node N_llm_agent_node,
         (front ++ [AIMessage c [call]])
           ++ [ToolMessage (output +++ source_info (tc_name call)) (tc_id call)]),
     mkWorld x (stdout w ++ [search_line call])).
Proof.
  intros R H. apply graph_step_tool_node.
  rewrite tool_node_snoc.
  rewrite (tool_loop_cons_registered env _ call [] [] w R).
  rewrite H. reflexivity.
Qed.

Lemma report_step_continue (n : node_id) (update : list BaseMessage) (k : nat)
    (w : world W) :
  k + 1 <= max_steps ->
  report_step (NodeChunk n update) k w
  = (Ok (Continue (k + 1)), mkWorld (ext w) (stdout w ++ [step_line n k])).
Proof.
  intros Hk. unfold report_step.
  apply Nat.ltb_ge in Hk.
  destruct n; unfold bind at 1; rewrite print_eq; rewrite Hk; reflexivity.
Qed.

Lemma stream_for_END (limit : nat) (state : AgentState) (k : nat) (w : world W) :
  stream_for env (S limit) END state report_step k w = (Ok k, w).
Proof. reflexivity. Qed.

Lemma stream_for_step (limit : nat) (n : node_id) (state state' : AgentState)
    (update : list BaseMessage) (t' : target) (k : nat) (w w1 : world W) :
  graph_step env n state w = (Ok (NodeChunk n update, t', state'), w1) ->
  k + 1 <= max_steps ->
  stream_for env (S limit) (Node n) state report_step k w
  = stream_for env limit t' state' report_step (k + 1)
      (mkWorld (ext w1) (stdout w1 ++ [step_line n k])).
Proof.
  intros Hstep Hk. simpl stream_for.
  rewrite (bind_ok _ _ _ _ _ Hstep).
  now rewrite (bind_ok _ _ _ _ _ (report_step_continue n update k w1 Hk)).
Qed.

Lemma run_graph_END (limit : nat) (state : AgentState) (w : world W) :
  run_graph env (S limit) END state w = (Ok state, w).
Proof. reflexivity. Qed.

Lemma run_graph_step (limit : nat) (n : node_id) (state state' : AgentState)
    (ch : chunk) (t' : target) (w w1 : world W) :
  graph_step env n state w = (Ok (ch, t', state'), w1) ->
  run_graph env (S limit) (Node n) state w = run_graph env limit t' state' w1.
Proof.
  intros Hstep. simpl run_graph. now rewrite (bind_ok _ _ _ _ _ Hstep).
Qed.

End ShortRuns.

(** X9.  When the model answers the query at once (its input being the
    system message followed by the query) and the recursion limit is at
    least 2, an execution takes one step and calls no tool: [app.invoke]
    returns the query and the answer.
    [run_research_agent] then prints one progress line and the answer; it
    has asked the model twice, once in the stream and once in
    [app.invoke]. *)
Theorem direct_answer_takes_one_step :
  forall (W : Type) (env : Env W) (query c : string) (w : world W) (x1 x2 : W),
    llm_with_tools env [system_message; HumanMessage query] (ext w) = (Ok (c, []), x1) ->
    llm_with_tools env [system_message; HumanMessage query] x1 = (Ok (c, []), x2) ->
    2 <= recursion_limit env ->
    app_invoke env [HumanMessage query] w
    = (Ok [HumanMessage query; AIMessage c []], mkWorld x1 (stdout w))
    /\ run_research_agent env query w
       = (Ok tt,
          mkWorld x2
            (stdout w
               ++ [Line (nl +++ "Question: " +++ query);
                   rule;
                   Line "Step 1: LLM is analyzing your question...";
                   rule;
                   Line ("Answer: " +++ c);
                   rule])).
Proof.
  intros W env query c w x1 x2 H1 H2 Hlimit.
  assert (Hstep : forall (x x' : W) (out : list printed),
             llm_with_tools env [system_message; HumanMessage query] x = (Ok (c, []), x') ->
             graph_step env N_llm_agent_node [HumanMessage query] (mkWorld x out)
             = (Ok (NodeChunk N_llm_agent_node [AIMessage c []], END,
                    [HumanMessage query; AIMessage c []]), mkWorld x' out)).
  { intros x x' out H.
    apply (graph_step_llm_ok env [HumanMessage query] (mkWorld x out) c [] x' H). }
  assert (Hinvoke : forall (x x' : W) (out : list printed),
             llm_with_tools env [system_message; HumanMessage query] x = (Ok (c, []), x') ->
             app_invoke env [HumanMessage query] (mkWorld x out)
             = (Ok ([HumanMessage query] ++ [AIMessage c []]), mkWorld x' out)).
  { intros x x' out H. unfold app_invoke.
    destruct (recursion_limit env) as [| [| limit]]; [lia | lia |].
    rewrite (run_graph_step env _ _ _ _ _ _ _ _ (Hstep x x' out H)).
    apply run_graph_END. }
  split.
  - destruct w as [x0 out]. apply (Hinvoke x0 x1 out H1).
  - rewrite run_research_agent_eq. unfold app_stream_for.
    destruct (recursion_limit env) as [| [| limit]] eqn:El; [lia | lia |].
    assert (Hk : 1 + 1 <= max_steps) by (unfold max_steps; lia).
    unfold bind at 1.
    rewrite (stream_for_step env (S limit) _ _ _ _ _ 1 _ _ (Hstep (ext w) x1 _ H1) Hk).
    rewrite stream_for_END.
    rewrite (final_report_ok env _ _ _ _ _ (Hinvoke x1 x2 _ H2)).
    cbn [ext stdout]. rewrite <- !app_assoc. reflexivity.
Qed.

Lemma direct_answer_takes_one_step_witness :
  llm_with_tools SessionStubs.env_direct
    [system_message; HumanMessage "What is the capital of France?"] (ext Stubs.start)
  = (Ok ("Paris", []), Stubs.mkCounters 1 0)
  /\ llm_with_tools SessionStubs.env_direct
       [system_message; HumanMessage "What is the capital of France?"]
       (Stubs.mkCounters 1 0)
     = (Ok ("Paris", []), Stubs.mkCounters 2 0)
  /\ 2 <= recursion_limit SessionStubs.env_direct
  /\ app_invoke SessionStubs.env_direct [HumanMessage "What is the capital of France?"]
       Stubs.start
     = (Ok [HumanMessage "What is the capital of France?"; AIMessage "Paris" []],
        mkWorld (Stubs.mkCounters 1 0) (stdout Stubs.start))
  /\ run_research_agent SessionStubs.env_direct "What is the capital of France?"
       Stubs.start
     = (Ok tt,
        mkWorld (Stubs.mkCounters 2 0)
          (stdout Stubs.start
             ++ [Line (nl +++ "Question: " +++ "What is the capital of France?");
                 rule;
                 Line "Step 1: LLM is analyzing your question...";
                 rule;
                 Line ("Answer: " +++ "Paris");
                 rule])).
Proof.
  split; [reflexivity | split; [reflexivity | split; [vm_compute; lia |]]].
  apply (direct_answer_takes_one_step _ SessionStubs.env_direct
           "What is the capital of France?" "Paris" Stubs.start
           (Stubs.mkCounters 1 0) (Stubs.mkCounters 2 0)).
  - reflexivity.
  - reflexivity.
  - vm_compute. lia.
Defined.

(** X10.  When the model first asks for one registered tool and answers
    once it is shown the result, and the recursion limit is at least 4, an
    execution takes three steps.  On its
    second call the model is given the query, its own request and the
    tool's output with the attribution, and no system message.
    [run_research_agent] prints three progress lines, the tool's search line
    once for the stream and once for [app.invoke], and the second answer. *)
Theorem one_tool_round_takes_three_steps :
  forall (W : Type) (env : Env W) (query c1 output c2 : string) (call : ToolCall)
         (w : world W),
    registered (tc_name call) = true ->
    (forall x, exists x',
        llm_with_tools env [system_message; HumanMessage query] x = (Ok (c1, [call]), x')) ->
    (forall x, exists x', executor env (tc_name call) call x = (Ok output, x')) ->
    (forall x, exists x',
        llm_with_tools env
          [HumanMessage query; AIMessage c1 [call];
           ToolMessage (output +++ source_info (tc_name call)) (tc_id call)] x
        = (Ok (c2, []), x')) ->
    4 <= recursion_limit env ->
    (exists x',
        app_invoke env [HumanMessage query] w
        = (Ok [HumanMessage query; AIMessage c1 [call];
               ToolMessage (output +++ source_info (tc_name call)) (tc_id call);
               AIMessage c2 []],
           mkWorld x' (stdout w ++ [search_line call])))
    /\ (exists x',
           run_research_agent env query w
           = (Ok tt,
              mkWorld x'
                (stdout w
                   ++ [Line (nl +++ "Question: " +++ query);
                       rule;
                       Line "Step 1: LLM is analyzing your question...";
                       search_line call;
                       Line "Step 2: Gathering information from sources...";
                       Line "Step 3: LLM is analyzing your question...";
                       search_line call;
                       rule;
                       Line ("Answer: " +++ c2);
                       rule]))).
Proof.
  intros W env query c1 output c2 call w R Hask Htool Hanswer Hlimit.
  set (reply := ToolMessage (output +++ source_info (tc_name call)) (tc_id call)) in *.
  assert (S1 : forall x out, exists x',
             graph_step env N_llm_agent_node [HumanMessage query] (mkWorld x out)
             = (Ok (NodeChunk N_llm_agent_node [AIMessage c1 [call]], Node N_tool_node,
                    [HumanMessage query; AIMessage c1 [call]]), mkWorld x' out)).
  { intros x out. destruct (Hask x) as (x' & H). exists x'.
    apply (graph_step_llm_ok env [HumanMessage query] (mkWorld x out) c1 [call] x' H). }
  assert (S2 : forall x out, exists x',
             graph_step env N_tool_node [HumanMessage query; AIMessage c1 [call]]
               (mkWorld x out)
             = (Ok (NodeChunk N_tool_node [reply], Node N_llm_agent_node,
                    [HumanMessage query; AIMessage c1 [call]; reply]),
                mkWorld x' (out ++ [search_line call]))).
  { intros x out. destruct (Htool x) as (x' & H). exists x'.
    apply (graph_step_single_call env [HumanMessage query] c1 call (mkWorld x out)
             output x' R H). }
  assert (S3 : forall x out, exists x',
             graph_step env N_llm_agent_node
               [HumanMessage query; AIMessage c1 [call]; reply] (mkWorld x out)
             = (Ok (NodeChunk N_llm_agent_node [AIMessage c2 []], END,
                    [HumanMessage query; AIMessage c1 [call]; reply; AIMessage c2 []]),
                mkWorld x' out)).
  { intros x out. destruct (Hanswer x) as (x' & H). exists x'.
    apply (graph_step_llm_ok env [HumanMessage query; AIMessage c1 [call]; reply]
             (mkWorld x out) c2 [] x' H). }
  destruct (recursion_limit env) as [| [| [| [| limit]]]] eqn:El; try lia.
  assert (Hinvoke : forall x out, exists x',
             app_invoke env [HumanMessage query] (mkWorld x out)
             = (Ok ([HumanMessage query; AIMessage c1 [call]; reply] ++ [AIMessage c2 []]),
                mkWorld x' (out ++ [search_line call]))).
  { intros x out. unfold app_invoke. rewrite El.
    destruct (S1 x out) as (x1 & H1).
    destruct (S2 x1 out) as (x2 & H2).
    destruct (S3 x2 (out ++ [search_line call])) as (x3 & H3).
    exists x3.
    rewrite (run_graph_step env _ _ _ _ _ _ _ _ H1).
    rewrite (run_graph_step env _ _ _ _ _ _ _ _ H2).
    rewrite (run_graph_step env _ _ _ _ _ _ _ _ H3).
    apply run_graph_END. }
  split.
  - destruct w as [x0 out]. apply (Hinvoke x0 out).
  - rewrite run_research_agent_eq. unfold app_stream_for. rewrite El.
    destruct (S1 (ext w) (stdout w ++ [Line (nl +++ "Question: " +++ query); rule]))
      as (x1 & H1).
    destruct (S2 x1 ((stdout w ++ [Line (nl +++ "Question: " +++ query); rule])
                       ++ [step_line N_llm_agent_node 1])) as (x2 & H2).
    destruct (S3 x2 ((((stdout w ++ [Line (nl +++ "Question: " +++ query); rule])
                         ++ [step_line N_llm_agent_node 1]) ++ [search_line call])
                       ++ [step_line N_tool_node 2])) as (x3 & H3).
    assert (K1 : 1 + 1 <= max_steps) by (unfold max_steps; lia).
    assert (K2 : 2 + 1 <= max_steps) by (unfold max_steps; lia).
    assert (K3 : 3 + 1 <= max_steps) by (unfold max_steps; lia).
    unfold bind at 1.
    rewrite (stream_for_step env _ _ _ _ _ _ 1 _ _ H1 K1). cbn [ext stdout].
    rewrite (stream_for_step env _ _ _ _ _ _ (1 + 1) _ _ H2 K2). cbn [ext stdout].
    rewrite (stream_for_step env _ _ _ _ _ _ (1 + 1 + 1) _ _ H3 K3). cbn [ext stdout].
    rewrite stream_for_END.
    destruct (Hinvoke x3
                ((((((stdout w ++ [Line (nl +++ "Question: " +++ query); rule])
                       ++ [step_line N_llm_agent_node 1]) ++ [search_line call])
                     ++ [step_line N_tool_node 2]))
                   ++ [step_line N_llm_agent_node (1 + 1 + 1)])) as (x4 & H4).
    rewrite (final_report_ok env _ _ _ _ _ H4).
    exists x4. cbn [ext stdout]. rewrite <- !app_assoc. reflexivity.
Qed.

Lemma one_tool_round_takes_three_steps_witness :
  registered (tc_name Stubs.web_call) = true
  /\ (forall x, exists x',
         llm_with_tools Stubs.env_search_once
           [system_message; HumanMessage "latest AI news"] x
         = (Ok (EmptyString, [Stubs.web_call]), x'))
  /\ (forall x, exists x',
         executor Stubs.env_search_once (tc_name Stubs.web_call) Stubs.web_call x
         = (Ok "News.", x'))
  /\ (forall x, exists x',
         llm_with_tools Stubs.env_search_once
           [HumanMessage "latest AI news"; AIMessage EmptyString [Stubs.web_call];
            ToolMessage ("News." +++ source_info (tc_name Stubs.web_call))
              (tc_id Stubs.web_call)] x
         = (Ok ("Here is the latest AI news.", []), x'))
  /\ 4 <= recursion_limit Stubs.env_search_once
  /\ (exists x',
         app_invoke Stubs.env_search_once [HumanMessage "latest AI news"] Stubs.start
         = (Ok [HumanMessage "latest AI news"; AIMessage EmptyString [Stubs.web_call];
                ToolMessage ("News." +++ source_info (tc_name Stubs.web_call))
                  (tc_id Stubs.web_call);
                AIMessage "Here is the latest AI news." []],
            mkWorld x' (stdout Stubs.start ++ [search_line Stubs.web_call])))
  /\ (exists x',
         run_research_agent Stubs.env_search_once "latest AI news" Stubs.start
         = (Ok tt,
            mkWorld x'
              (stdout Stubs.start
                 ++ [Line (nl +++ "Question: " +++ "latest AI news");
                     rule;
                     Line "Step 1: LLM is analyzing your question...";
                     search_line Stubs.web_call;
                     Line "Step 2: Gathering information from sources...";
                     Line "Step 3: LLM is analyzing your question...";
                     search_line Stubs.web_call;
                     rule;
                     Line ("Answer: " +++ "Here is the latest AI news.");
                     rule]))).
Proof.
  assert (H1 : forall x, exists x',
             llm_with_tools Stubs.env_search_once
               [system_message; HumanMessage "latest AI news"] x
             = (Ok (EmptyString, [Stubs.web_call]), x')).
  { intros x. eexists. reflexivity. }
  assert (H2 : forall x, exists x',
             executor Stubs.env_search_once (tc_name Stubs.web_call) Stubs.web_call x
             = (Ok "News.", x')).
  { intros x. eexists. reflexivity. }
  assert (H3 : forall x, exists x',
             llm_with_tools Stubs.env_search_once
               [HumanMessage "latest AI news"; AIMessage EmptyString [Stubs.web_call];
                ToolMessage ("News." +++ source_info (tc_name Stubs.web_call))
                  (tc_id Stubs.web_call)] x
             = (Ok ("Here is the latest AI news.", []), x')).
  { intros x. eexists. reflexivity. }
  assert (H4 : 4 <= recursion_limit Stubs.env_search_once) by (vm_compute; lia).
  split; [reflexivity | split; [exact H1 | split; [exact H2 | split; [exact H3 |]]]].
  split; [exact H4 |].
  exact (one_tool_round_takes_three_steps _ Stubs.env_search_once
           "latest AI news" EmptyString "News." "Here is the latest AI news."
           Stubs.web_call Stubs.start eq_refl H1 H2 H3 H4).
Defined.

(** ** What the verbose variant dumps *)

Section Dumps.

Context {W : Type} (env : Env W).

Lemma dumped_updates_app (xs ys : list printed) :
  dumped_updates (xs ++ ys) = dumped_updates xs ++ dumped_updates ys.
Proof. apply flat_map_app. Qed.

Lemma search_line_dumps_nothing (c : ToolCall) (r : result string) :
  dumped_updates (search_line c :: error_lines c r) = [].
Proof.
  unfold search_line.
  destruct (tc_name c =? "wikipedia"), r; reflexivity.
Qed.

(** [tool_node]'s loop adds lines to the output, and only lines. *)
Lemma tool_loop_prints_lines (state : AgentState) (calls : list ToolCall) :
  forall (acc : list BaseMessage) (w w' : world W) (r : result (list BaseMessage)),
    tool_loop env state calls acc w = (r, w') ->
    exists out, stdout w' = stdout w ++ out /\ dumped_updates out = [].
Proof.
  induction calls as [| c calls IH]; intros acc w w' r H.
  - inversion H; subst. exists []. now rewrite app_nil_r.
  - destruct (registered (tc_name c)) eqn:Rc.
    + rewrite (tool_loop_cons_registered env state c calls acc w Rc) in H.
      apply IH in H. destruct H as (out & Hout & Hd). cbn [stdout] in Hout.
      exists ((search_line c
                 :: error_lines c (fst (executor env (tc_name c) c (ext w)))) ++ out).
      split.
      * now rewrite Hout, app_assoc.
      * now rewrite dumped_updates_app, search_line_dumps_nothing, Hd.
    + rewrite (tool_loop_cons_unregistered env state c calls acc w Rc) in H.
      unfold call in H. cbn [ext stdout] in H.
      destruct (tool_node_fallback env state (ext w)) as [r' x'].
      inversion H; subst. now eexists.
Qed.

Lemma graph_step_prints_lines (n : node_id) (state : AgentState) (w w' : world W)
    (r : chunk * target * AgentState) :
  graph_step env n state w = (Ok r, w') ->
  exists out, stdout w' = stdout w ++ out /\ dumped_updates out = [].
Proof.
  destruct r as [[ch t] state']. destruct n; intros H.
  - apply graph_step_llm_inv in H. destruct H as (c & calls & Hnode & _).
    rewrite llm_agent_node_eq in Hnode.
    destruct (llm_with_tools env _ (ext w)) as [[r | e] x]; inversion Hnode.
    exists []. now rewrite app_nil_r.
  - apply graph_step_tool_inv in H. destruct H as (outs & Hnode & _).
    unfold tool_node in Hnode.
    apply bind_inv_ok in Hnode. destruct Hnode as (m & w1 & Hlast & Hnode).
    apply last_item_ok_inv in Hlast. destruct Hlast as (-> & _).
    apply bind_inv_ok in Hnode. destruct Hnode as (calls & w2 & Hcalls & Hloop).
    destruct m; inversion Hcalls; subst.
    eapply tool_loop_prints_lines. exact Hloop.
Qed.

Lemma run_graph_prints_lines (limit : nat) :
  forall (t : target) (state final : AgentState) (w w' : world W),
    run_graph env limit t state w = (Ok final, w') ->
    exists out, stdout w' = stdout w ++ out /\ dumped_updates out = [].
Proof.
  induction limit as [| limit IH]; intros t state final w w' H.
  - discriminate.
  - destruct t as [n |]; simpl in H.
    + apply bind_inv_ok in H. destruct H as ([[ch t1] state1] & w1 & Hstep & H).
      apply graph_step_prints_lines in Hstep. destruct Hstep as (o1 & E1 & D1).
      apply IH in H. destruct H as (o2 & E2 & D2).
      exists (o1 ++ o2). split.
      * now rewrite E2, E1, app_assoc.
      * now rewrite dumped_updates_app, D1, D2.
    + inversion H. exists []. now rewrite app_nil_r.
Qed.

(** The updates dumped while streaming, put behind the state the stream
    started from, are the state of a run that has come to [END]. *)
Lemma stream_dump_collects (query : string) (limit : nat) :
  forall (t : target) (state : AgentState) (w w' : world W),
    reachable env query t state ->
    stream_for env limit t state dump_step tt w = (Ok tt, w') ->
    exists out,
      stdout w' = stdout w ++ out
      /\ reachable env query END (state ++ dumped_updates out).
Proof.
  assert (Hend : forall (state : AgentState) (w w' : world W),
             reachable env query END state ->
             (c <- dump_step (EndChunk state) tt ;; ret (leave c)) w = (Ok tt, w') ->
             exists out,
               stdout w' = stdout w ++ out
               /\ reachable env query END (state ++ dumped_updates out)).
  { intros state w w' Hreach H. inversion H; subst.
    exists []. simpl. now rewrite !app_nil_r. }
  induction limit as [| limit IH]; intros t state w w' Hreach H.
  - discriminate.
  - destruct t as [n |]; simpl in H; [| eauto].
    apply bind_inv_ok in H. destruct H as ([[ch t1] state1] & w1 & Hstep & H).
    pose proof (reach_step env query _ _ _ _ _ _ _ Hreach Hstep) as Hreach1.
    destruct (graph_step_appends env _ _ _ _ _ _ _ Hstep) as (update & -> & ->).
    destruct (graph_step_prints_lines _ _ _ _ _ Hstep) as (o1 & E1 & D1).
    unfold dump_step at 1 in H.
    unfold bind at 1 in H. unfold bind at 1 in H. rewrite print_eq in H.
    unfold bind at 1 in H. rewrite print_eq in H. unfold ret at 1 in H.
    cbn [ext stdout] in H.
    destruct (IH _ _ _ _ Hreach1 H) as (o2 & E2 & Hfinal).
    cbn [stdout] in E2.
    exists (o1 ++ [ChunkDump (NodeChunk n update); Line "---"] ++ o2).
    split.
    + rewrite E2, E1. now rewrite <- !app_assoc.
    + rewrite !dumped_updates_app, D1. simpl.
      rewrite app_nil_r, app_assoc. exact Hfinal.
Qed.

End Dumps.

Lemma stream_dump_matches_run (W : Type) (env : Env W) (limit : nat) :
  input_determined env ->
  forall (t : target) (state final : AgentState) (w w' wr wr' : world W),
    stream_for env limit t state dump_step tt w = (Ok tt, w') ->
    run_graph env limit t state wr = (Ok final, wr') ->
    exists out,
      stdout w' = stdout w ++ out
      /\ state ++ dumped_updates out = final.
Proof.
  intros determined.
  assert (Hend : forall (state final : AgentState) (w w' wr wr' : world W),
             (c <- dump_step (EndChunk state) tt ;; ret (leave c)) w = (Ok tt, w') ->
             ret state wr = (Ok final, wr') ->
             exists out,
               stdout w' = stdout w ++ out /\ state ++ dumped_updates out = final).
  { intros state final w w' wr wr' H Hr. inversion H; inversion Hr; subst.
    exists []. simpl. now rewrite !app_nil_r. }
  induction limit as [| limit IH]; intros t state final w w' wr wr' H Hr.
  - discriminate.
  - destruct t as [n |]; simpl in H, Hr; [| eauto].
    apply bind_inv_ok in H. destruct H as ([[ch t1] state1] & w1 & Hstep & H).
    apply bind_inv_ok in Hr. destruct Hr as ([[ch' t1'] state1'] & wr1 & Hstep' & Hr).
    pose proof (blind_graph_step env determined n state w wr) as Hb.
    rewrite Hstep, Hstep' in Hb. simpl in Hb. inversion Hb; subst ch' t1' state1'.
    destruct (graph_step_appends env _ _ _ _ _ _ _ Hstep) as (update & -> & ->).
    destruct (graph_step_prints_lines env _ _ _ _ _ Hstep) as (o1 & E1 & D1).
    unfold dump_step at 1 in H.
    unfold bind at 1 in H. unfold bind at 1 in H. rewrite print_eq in H.
    unfold bind at 1 in H. rewrite print_eq in H. unfold ret at 1 in H.
    cbn [ext stdout] in H.
    destruct (IH _ _ _ _ _ _ _ H Hr) as (o2 & E2 & Hfinal).
    cbn [stdout] in E2.
    exists (o1 ++ [ChunkDump (NodeChunk n update); Line "---"] ++ o2).
    split.
    + rewrite E2, E1. now rewrite <- !app_assoc.
    + rewrite !dumped_updates_app, D1. simpl.
      rewrite app_nil_r, app_assoc. exact Hfinal.
Qed.

(** X11.  When [run_research_agent_verbose] completes, the updates of the
    chunks it has dumped, put in order behind the query, are the whole
    conversation of the streamed execution, which has come to [END].  When
    the collaborators' answers depend on their input only, this is also the
    final state of [app.invoke], the one the final response is read
    from. *)
Theorem verbose_dumps_the_conversation :
  forall (W : Type) (env : Env W) (query : string) (w w' : world W),
    run_research_agent_verbose env query w = (Ok tt, w') ->
    exists out,
      stdout w' = stdout w ++ out
      /\ reachable env query END (HumanMessage query :: dumped_updates out)
      /\ (input_determined env ->
          forall w0,
            fst (app_invoke env [HumanMessage query] w0)
            = Ok (HumanMessage query :: dumped_updates out)).
Proof.
  intros W env query w w' H.
  unfold run_research_agent_verbose in H.
  apply bind_inv_ok in H. destruct H as ([] & v1 & Hp1 & H).
  rewrite print_eq in Hp1. inversion Hp1; subst v1. clear Hp1.
  apply bind_inv_ok in H. destruct H as ([] & v2 & Hstream & H).
  apply bind_inv_ok in H. destruct H as (final & v3 & Hinvoke & H).
  apply bind_inv_ok in H. destruct H as ([] & v4 & Hp2 & H).
  rewrite print_eq in Hp2. inversion Hp2; subst v4. clear Hp2.
  apply bind_inv_ok in H. destruct H as (m & v5 & Hlast & H).
  apply last_item_ok_inv in Hlast. destruct Hlast as (-> & _).
  rewrite print_eq in H. inversion H; subst w'. clear H.
  unfold app_stream_for in Hstream.
  destruct (stream_dump_collects env query _ _ _ _ _ (reach_start env query) Hstream)
    as (o1 & E1 & Hreach).
  destruct (run_graph_prints_lines env _ _ _ _ _ _ Hinvoke) as (o2 & E2 & D2).
  cbn [stdout] in E1.
  exists ([Line (nl +++ "--- Running Research Agent for: '" +++ query
                 +++ "' ---" +++ nl)]
            ++ o1 ++ o2
            ++ [Line (nl +++ "--- FINAL RESPONSE ---"); Line (content m)]).
  assert (Hd : dumped_updates
                 ([Line (nl +++ "--- Running Research Agent for: '" +++ query
                         +++ "' ---" +++ nl)]
                    ++ o1 ++ o2
                    ++ [Line (nl +++ "--- FINAL RESPONSE ---"); Line (content m)])
               = dumped_updates o1).
  { rewrite !dumped_updates_app, D2. simpl. now rewrite app_nil_r. }
  rewrite Hd. split; [| split].
  - cbn [stdout]. rewrite E2, E1. now rewrite <- !app_assoc.
  - exact Hreach.
  - intros determined w0.
    destruct (stream_dump_matches_run W env _ determined _ _ _ _ _ _ _ Hstream Hinvoke)
      as (o1' & E1' & Hfinal).
    cbn [stdout] in E1'. rewrite E1 in E1'. apply app_inv_head in E1'. subst o1'.
    unfold app_invoke in *.
    rewrite (blind_run_graph env determined _ _ _ w0 v2), Hinvoke.
    simpl. now rewrite <- Hfinal.
Qed.

Lemma verbose_dumps_the_conversation_witness :
  run_research_agent_verbose Stubs.env_search_once "latest AI news" Stubs.start
  = (Ok tt,
     snd (run_research_agent_verbose Stubs.env_search_once "latest AI news" Stubs.start))
  /\ dumped_updates
       (stdout (snd (run_research_agent_verbose Stubs.env_search_once "latest AI news"
                       Stubs.start)))
     = [AIMessage EmptyString [Stubs.web_call];
        ToolMessage ("News." +++ nl +++ nl +++ "Source: Web Search (DuckDuckGo)") "call_2";
        AIMessage "Here is the latest AI news." []]
  /\ exists out,
       stdout (snd (run_research_agent_verbose Stubs.env_search_once "latest AI news"
                      Stubs.start))
       = stdout Stubs.start ++ out
       /\ reachable Stubs.env_search_once "latest AI news" END
            (HumanMessage "latest AI news" :: dumped_updates out)
       /\ (input_determined Stubs.env_search_once ->
           forall w0,
             fst (app_invoke Stubs.env_search_once [HumanMessage "latest AI news"] w0)
             = Ok (HumanMessage "latest AI news" :: dumped_updates out)).
Proof.
  split; [vm_compute; reflexivity | split; [vm_compute; reflexivity |]].
  apply (verbose_dumps_the_conversation _ Stubs.env_search_once "latest AI news"
           Stubs.start).
  vm_compute. reflexivity.
Defined.

(** ** The interactive session *)

Section Session.

Context {W : Type} (env : Env W).

(** One round on a typed line, case by case. *)
Lemma main_round_typed (line : string) (w : world W) :
  main_round env (Some (Typed line)) w
  = if existsb (String.eqb (lower (strip line))) quit_words
    then (Ok (Break tt),
          mkWorld (ext w) (stdout w ++ [Line prompt; Line "Goodbye!"]))
    else match strip line with
         | EmptyString =>
             (Ok (Continue tt),
              mkWorld (ext w) (stdout w ++ [Line prompt; Line "Please enter a question!"]))
         | String _ _ =>
             match run_research_agent env (strip line)
                     (mkWorld (ext w) (stdout w ++ [Line prompt])) with
             | (Ok _, w2) => (Ok (Continue tt), w2)
             | (Raise e, w2) =>
                 (Ok (Continue tt),
                  mkWorld (ext w2)
                    (stdout w2
                       ++ [Line ("An error occurred: " +++ str_exn e);
                           Line "Please try again with a different question."]))
             end
         end.
Proof.
  unfold main_round, try_except, input.
  unfold bind at 1. unfold bind at 1. rewrite print_eq. unfold ret at 1.
  destruct (existsb (String.eqb (lower (strip line))) quit_words).
  - unfold bind, ret. rewrite print_eq. cbn [ext stdout].
    now rewrite <- app_assoc.
  - destruct (strip line) as [| a s] eqn:E.
    + unfold bind, ret. rewrite print_eq. cbn [ext stdout].
      now rewrite <- app_assoc.
    + unfold bind at 1.
      destruct (run_research_agent env (String a s) _) as [[[] | e] w2].
      * reflexivity.
      * unfold bind, ret. rewrite !print_eq. cbn [ext stdout].
        now rewrite <- app_assoc.
Qed.

Lemma main_round_CtrlC (w : world W) :
  main_round env (Some CtrlC) w
  = (Ok (Break tt),
     mkWorld (ext w) (stdout w ++ [Line prompt; Line (nl +++ "Goodbye!")])).
Proof.
  unfold main_round, try_except, input, bind, ret. rewrite !print_eq.
  cbn [ext stdout]. now rewrite <- app_assoc.
Qed.

Lemma main_round_EOF (w : world W) :
  main_round env None w = (Ok (Continue tt), mkWorld (ext w) (stdout w ++ eof_round)).
Proof.
  unfold main_round, try_except, input, bind, ret, raise. rewrite !print_eq.
  cbn [ext stdout]. now rewrite <- !app_assoc.
Qed.

Lemma main_round_leaves (k : keyboard) (w : world W) :
  leaves k = true ->
  main_round env (Some k) w
  = (Ok (Break tt), mkWorld (ext w) (stdout w ++ [Line prompt; farewell k])).
Proof.
  destruct k as [line |]; unfold leaves, farewell; intros H.
  - now rewrite main_round_typed, H.
  - apply main_round_CtrlC.
Qed.

Lemma main_round_stays (k : keyboard) (w : world W) :
  leaves k = false ->
  exists w', main_round env (Some k) w = (Ok (Continue tt), w').
Proof.
  destruct k as [line |]; unfold leaves; intros H; [| discriminate].
  rewrite main_round_typed, H.
  destruct (strip line); [now eexists |].
  destruct (run_research_agent env _ _) as [[[] | e] w2]; now eexists.
Qed.

Lemma lstrip_all_space (l : list ascii) :
  forallb is_space l = true -> lstrip_chars l = [].
Proof.
  induction l as [| c l IH]; simpl; intros H; [reflexivity |].
  apply andb_prop in H. destruct H as [Hc Hl]. rewrite Hc. now apply IH.
Qed.

End Session.

(** X12.  The session ends at the first event that says goodbye (Ctrl-C,
    or a line reading [quit], [exit] or [q] in any case and with any white
    space around it): given more rounds than there are events before it,
    [main_loop] leaves with what follows that event unread and the farewell
    as its last line; given fewer, it is still running. *)
Theorem session_ends_at_first_goodbye :
  forall (W : Type) (env : Env W) (pre : list keyboard) (k : keyboard)
         (rest : list keyboard),
    Forall (fun k0 => leaves k0 = false) pre ->
    leaves k = true ->
    forall (rounds : nat) (w : world W),
    exists w',
      main_loop env rounds (pre ++ k :: rest) w
      = (Ok (if (List.length pre <? rounds)%nat then Some rest else None), w')
      /\ (List.length pre < rounds ->
          exists out, stdout w' = out ++ [Line prompt; farewell k]).
Proof.
  intros W env pre k rest Hpre Hk.
  induction Hpre as [| k0 pre Hk0 Hpre IH]; intros rounds w.
  - destruct rounds as [| rounds]; simpl.
    + exists w. split; [reflexivity | lia].
    + rewrite (bind_ok _ _ _ _ _ (main_round_leaves env k w Hk)).
      eexists. split; [reflexivity |]. intros _.
      exists (stdout w). reflexivity.
  - destruct rounds as [| rounds].
    + exists w. split; [reflexivity | simpl; lia].
    + destruct (main_round_stays env k0 w Hk0) as (w1 & H1).
      destruct (IH rounds w1) as (w' & H & Hout).
      exists w'. split.
      * simpl main_loop. rewrite (bind_ok _ _ _ _ _ H1). exact H.
      * intros Hlt. apply Hout. simpl in Hlt. lia.
Qed.

Lemma session_ends_at_first_goodbye_witness :
  Forall (fun k0 => leaves k0 = false) [Typed "   "; Typed "What is the capital of France?"]
  /\ leaves (Typed "  QUIT ") = true
  /\ (exists w',
         main_loop SessionStubs.env_direct 5
           ([Typed "   "; Typed "What is the capital of France?"]
              ++ Typed "  QUIT " :: [Typed "never read"])
           Stubs.start
         = (Ok (if (List.length [Typed "   "; Typed "What is the capital of France?"]
                    <? 5)%nat
                then Some [Typed "never read"] else None), w')
         /\ (List.length [Typed "   "; Typed "What is the capital of France?"] < 5 ->
             exists out, stdout w' = out ++ [Line prompt; farewell (Typed "  QUIT ")]))
  /\ ext (snd (main_loop SessionStubs.env_direct 5
                 [Typed "   "; Typed "What is the capital of France?"; Typed "  QUIT ";
                  Typed "never read"]
                 Stubs.start))
     = Stubs.mkCounters 2 0.
Proof.
  assert (H1 : Forall (fun k0 => leaves k0 = false)
                 [Typed "   "; Typed "What is the capital of France?"]).
  { repeat constructor. }
  assert (H2 : leaves (Typed "  QUIT ") = true) by reflexivity.
  split; [exact H1 | split; [exact H2 | split; [| vm_compute; reflexivity]]].
  exact (session_ends_at_first_goodbye _ SessionStubs.env_direct
           [Typed "   "; Typed "What is the capital of France?"] (Typed "  QUIT ")
           [Typed "never read"] H1 H2 5 Stubs.start).
Defined.

(** X13.  A line of white space only (the empty line included) costs a
    round and nothing else: the session prints its prompt and
    ["Please enter a question!"], calls neither the agent nor any
    collaborator, and goes on with the next line. *)
Theorem blank_line_is_not_a_question :
  forall (W : Type) (env : Env W) (line : string) (rest : list keyboard)
         (rounds : nat) (w : world W),
    forallb is_space (list_ascii_of_string line) = true ->
    strip line = EmptyString
    /\ main_loop env (S rounds) (Typed line :: rest) w
       = main_loop env rounds rest
           (mkWorld (ext w)
              (stdout w ++ [Line prompt; Line "Please enter a question!"])).
Proof.
  intros W env line rest rounds w H.
  assert (E : strip line = EmptyString).
  { unfold strip. now rewrite (lstrip_all_space _ H). }
  split; [exact E |].
  simpl main_loop. unfold bind at 1.
  rewrite main_round_typed, E. reflexivity.
Qed.

Lemma blank_line_is_not_a_question_witness :
  forallb is_space (list_ascii_of_string "   ") = true
  /\ strip "   " = EmptyString
  /\ main_loop SessionStubs.env_direct (S 1) (Typed "   " :: [Typed "q"]) Stubs.start
     = main_loop SessionStubs.env_direct 1 [Typed "q"]
         (mkWorld (ext Stubs.start)
            (stdout Stubs.start ++ [Line prompt; Line "Please enter a question!"])).
Proof.
  split; [reflexivity |].
  apply (blank_line_is_not_a_question _ SessionStubs.env_direct "   " [Typed "q"] 1
           Stubs.start).
  reflexivity.
Defined.

(** X14.  At the end of the input the session does not stop: [input]
    raises [EOFError], the [except Exception] clause prints its two lines,
    and the loop asks again.  However many rounds it is given, [main_loop]
    is still running after them, having printed the same three lines each
    round and called no collaborator. *)
Theorem end_of_input_never_ends_the_session :
  forall (W : Type) (env : Env W) (rounds : nat) (w : world W),
    main_loop env rounds [] w
    = (Ok None, mkWorld (ext w) (stdout w ++ List.concat (repeat eof_round rounds))).
Proof.
  intros W env rounds. induction rounds as [| rounds IH]; intros w.
  - simpl. unfold ret. rewrite app_nil_r. now destruct w.
  - simpl main_loop. rewrite (bind_ok _ _ _ _ _ (main_round_EOF env w)).
    simpl tl. rewrite IH. cbn [ext stdout].
    simpl repeat. simpl List.concat. now rewrite <- app_assoc.
Qed.

(** ** White space around a line *)

Lemma list_ascii_of_string_app (a b : string) :
  list_ascii_of_string (a +++ b) = list_ascii_of_string a ++ list_ascii_of_string b.
Proof.
  induction a as [| c a IH]; simpl; [reflexivity | now rewrite IH].
Qed.

Lemma lstrip_skips_padding (pad l : list ascii) :
  forallb is_space pad = true -> lstrip_chars (pad ++ l) = lstrip_chars l.
Proof.
  induction pad as [| c pad IH]; simpl; intros H; [reflexivity |].
  apply andb_prop in H. destruct H as [Hc Hpad]. rewrite Hc. now apply IH.
Qed.

Lemma lstrip_before_padding (l pad : list ascii) :
  forallb is_space pad = true ->
  (lstrip_chars l = [] /\ lstrip_chars (l ++ pad) = [])
  \/ (lstrip_chars l <> [] /\ lstrip_chars (l ++ pad) = lstrip_chars l ++ pad).
Proof.
  intros Hpad. induction l as [| c l IH]; simpl.
  - left. split; [reflexivity | now apply lstrip_all_space].
  - destruct (is_space c); [exact IH |].
    right. split; [discriminate | reflexivity].
Qed.

Lemma forallb_rev (f : ascii -> bool) (l : list ascii) :
  forallb f l = true -> forallb f (rev l) = true.
Proof.
  rewrite !forallb_forall. intros H x Hx. apply H. now apply in_rev.
Qed.

Lemma lstrip_head (l : list ascii) (c : ascii) (l' : list ascii) :
  lstrip_chars l = c :: l' -> is_space c = false.
Proof.
  induction l as [| a l IH]; simpl; [discriminate |].
  destruct (is_space a) eqn:E; [exact IH |].
  intros H. inversion H; subst. exact E.
Qed.

Lemma lstrip_is_suffix (l : list ascii) :
  exists pad, l = pad ++ lstrip_chars l.
Proof.
  induction l as [| a l (pad & IH)]; simpl.
  - now exists [].
  - destruct (is_space a).
    + exists (a :: pad). simpl. now rewrite <- IH.
    + now exists [].
Qed.

(** X16.  White space around a line does not matter to the session: the
    padded line is stripped to the same text and the round does the same.
    And what is stripped, hence every query handed to the agent, neither
    starts nor ends with a white space character. *)
Theorem session_ignores_surrounding_space :
  forall (W : Type) (env : Env W) (pad1 line pad2 : string) (w : world W),
    forallb is_space (list_ascii_of_string pad1) = true ->
    forallb is_space (list_ascii_of_string pad2) = true ->
    strip (pad1 +++ line +++ pad2) = strip line
    /\ main_round env (Some (Typed (pad1 +++ line +++ pad2))) w
       = main_round env (Some (Typed line)) w
    /\ (forall a rest, strip line = String a rest -> is_space a = false)
    /\ (forall front z,
           list_ascii_of_string (strip line) = front ++ [z] -> is_space z = false).
Proof.
  intros W env pad1 line pad2 w H1 H2.
  assert (E : strip (pad1 +++ line +++ pad2) = strip line).
  { unfold strip. rewrite !list_ascii_of_string_app.
    rewrite (lstrip_skips_padding _ _ H1).
    destruct (lstrip_before_padding (list_ascii_of_string line) _ H2)
      as [[Ha Hb] | [Ha Hb]]; rewrite Hb.
    - now rewrite Ha.
    - rewrite rev_app_distr.
      now rewrite (lstrip_skips_padding _ _ (forallb_rev _ _ H2)). }
  split; [exact E |]. split; [| split].
  - now rewrite !main_round_typed, E.
  - intros a rest Hs. unfold strip in Hs.
    set (A := lstrip_chars (list_ascii_of_string line)) in *.
    destruct (lstrip_is_suffix (rev A)) as (pad & Hsuf).
    assert (HA : A = rev (lstrip_chars (rev A)) ++ rev pad).
    { rewrite <- rev_app_distr, <- Hsuf. now rewrite rev_involutive. }
    destruct (rev (lstrip_chars (rev A))) as [| b B] eqn:EB; [discriminate |].
    simpl in Hs. inversion Hs; subst b.
    unfold A in HA. simpl in HA.
    eapply lstrip_head. exact HA.
  - intros front z Hs. unfold strip in Hs.
    rewrite list_ascii_of_string_of_list_ascii in Hs.
    apply (f_equal (@rev ascii)) in Hs.
    rewrite rev_involutive, rev_unit in Hs.
    eapply lstrip_head. exact Hs.
Qed.

Lemma session_ignores_surrounding_space_witness :
  forallb is_space (list_ascii_of_string "  ") = true
  /\ forallb is_space (list_ascii_of_string (" " +++ nl)) = true
  /\ strip ("  " +++ "What is the capital of France?" +++ (" " +++ nl))
     = strip "What is the capital of France?"
  /\ main_round SessionStubs.env_direct
       (Some (Typed ("  " +++ "What is the capital of France?" +++ (" " +++ nl))))
       Stubs.start
     = main_round SessionStubs.env_direct
         (Some (Typed "What is the capital of France?")) Stubs.start
  /\ (forall a rest,
         strip "What is the capital of France?" = String a rest -> is_space a = false)
  /\ (forall front z,
         list_ascii_of_string (strip "What is the capital of France?") = front ++ [z] ->
         is_space z = false).
Proof.
  split; [reflexivity | split; [reflexivity |]].
  apply (session_ignores_surrounding_space _ SessionStubs.env_direct
           "  " "What is the capital of France?" (" " +++ nl) Stubs.start);
    reflexivity.
Defined.

(** * The step cap, mixed batches and the second execution *)

(** ** A model that never answers *)

Section NeverAnswers.

Variables (limit : nat) (text : string).

Lemma never_answers_asks (state : AgentState) (w : world Stubs.counters) :
  graph_step (SessionStubs.env_never_answers limit text) N_llm_agent_node state w
  = (Ok (NodeChunk N_llm_agent_node [AIMessage EmptyString [Stubs.wiki_call]],
         Node N_tool_node,
         state ++ [AIMessage EmptyString [Stubs.wiki_call]]),
     mkWorld (Stubs.count_llm (ext w)) (stdout w)).
Proof.
  apply (graph_step_llm_ok _ state w EmptyString [Stubs.wiki_call]). reflexivity.
Qed.

Lemma never_answers_searches (front : list BaseMessage) (c : string)
    (w : world Stubs.counters) :
  graph_step (SessionStubs.env_never_answers limit text) N_tool_node
    (front ++ [AIMessage c [Stubs.wiki_call]]) w
  = (Ok (NodeChunk N_tool_node
           [ToolMessage ("Alan Turing was a mathematician." +++ source_info "wikipedia")
              "call_1"],
         Node N_llm_agent_node,
         (front ++ [AIMessage c [Stubs.wiki_call]])
           ++ [ToolMessage ("Alan Turing was a mathematician." +++ source_info "wikipedia")
                 "call_1"]),
     mkWorld (Stubs.count_tool (ext w)) (stdout w ++ [search_line Stubs.wiki_call])).
Proof.
  apply (graph_step_single_call _ front c Stubs.wiki_call w
           "Alan Turing was a mathematician."); reflexivity.
Qed.

Lemma never_answers_run_graph (fuel : nat) :
  (forall (state : AgentState) (w : world Stubs.counters),
      run_graph (SessionStubs.env_never_answers limit text) fuel (Node N_llm_agent_node) state w
      = (Raise (GraphRecursionError text),
         mkWorld
           (Stubs.mkCounters (Stubs.llm_calls (ext w) + Nat.div2 (S fuel))
              (Stubs.tool_runs (ext w) + Nat.div2 fuel))
           (stdout w ++ repeat (search_line Stubs.wiki_call) (Nat.div2 fuel))))
  /\ (forall (front : list BaseMessage) (c : string) (w : world Stubs.counters),
         run_graph (SessionStubs.env_never_answers limit text) fuel (Node N_tool_node)
           (front ++ [AIMessage c [Stubs.wiki_call]]) w
         = (Raise (GraphRecursionError text),
            mkWorld
              (Stubs.mkCounters (Stubs.llm_calls (ext w) + Nat.div2 fuel)
                 (Stubs.tool_runs (ext w) + Nat.div2 (S fuel)))
              (stdout w ++ repeat (search_line Stubs.wiki_call) (Nat.div2 (S fuel))))).
Proof.
  induction fuel as [| fuel [IHl IHt]].
  - split; intros; destruct w as [[a b] out]; simpl;
      now rewrite !Nat.add_0_r, app_nil_r.
  - split.
    + intros state w.
      rewrite (run_graph_step _ fuel _ _ _ _ _ _ _ (never_answers_asks state w)).
      rewrite IHt. destruct w as [[a b] out].
      cbn [ext stdout Stubs.count_llm Stubs.llm_calls Stubs.tool_runs].
      change (Nat.div2 (S (S fuel))) with (S (Nat.div2 fuel)).
      now rewrite Nat.add_succ_r.
    + intros front c w.
      rewrite (run_graph_step _ fuel _ _ _ _ _ _ _ (never_answers_searches front c w)).
      rewrite IHl. destruct w as [[a b] out].
      cbn [ext stdout Stubs.count_tool Stubs.llm_calls Stubs.tool_runs].
      change (Nat.div2 (S (S fuel))) with (S (Nat.div2 fuel)).
      rewrite Nat.add_succ_r. cbn [repeat]. now rewrite <- app_assoc.
Qed.

Lemma never_answers_stream (m : nat) (query : string) (w : world Stubs.counters) :
  stream_for (SessionStubs.env_never_answers limit text) (10 + m) (Node entry_point)
    (reducer [] [HumanMessage query]) report_step 1 w
  = (Ok 11,
     mkWorld
       (Stubs.mkCounters (Stubs.llm_calls (ext w) + 5) (Stubs.tool_runs (ext w) + 5))
       (stdout w ++ flat_map cycle_lines [1; 2; 3; 4; 5] ++ [warning])).
Proof.
  assert (Hcap : forall k, k <= 9 -> k + 1 <= max_steps)
    by (intros k Hk; unfold max_steps; lia).
  unfold entry_point. cbn [Nat.add].
  rewrite (stream_for_step _ _ _ _ _ _ _ _ _ _ (never_answers_asks _ _) (Hcap 1 ltac:(lia))).
  rewrite (stream_for_step _ _ _ _ _ _ _ _ _ _ (never_answers_searches _ _ _) (Hcap 2 ltac:(lia))).
  rewrite (stream_for_step _ _ _ _ _ _ _ _ _ _ (never_answers_asks _ _) (Hcap 3 ltac:(lia))).
  rewrite (stream_for_step _ _ _ _ _ _ _ _ _ _ (never_answers_searches _ _ _) (Hcap 4 ltac:(lia))).
  rewrite (stream_for_step _ _ _ _ _ _ _ _ _ _ (never_answers_asks _ _) (Hcap 5 ltac:(lia))).
  rewrite (stream_for_step _ _ _ _ _ _ _ _ _ _ (never_answers_searches _ _ _) (Hcap 6 ltac:(lia))).
  rewrite (stream_for_step _ _ _ _ _ _ _ _ _ _ (never_answers_asks _ _) (Hcap 7 ltac:(lia))).
  rewrite (stream_for_step _ _ _ _ _ _ _ _ _ _ (never_answers_searches _ _ _) (Hcap 8 ltac:(lia))).
  rewrite (stream_for_step _ _ _ _ _ _ _ _ _ _ (never_answers_asks _ _) (Hcap 9 ltac:(lia))).
  assert (Hlast : max_steps < 10 + 1) by (unfold max_steps; lia).
  rewrite (stream_for_break _ _ _ _ _ _ _ _ _ _ (never_answers_searches _ _ _) Hlast).
  destruct w as [[a b] out].
  cbn [ext stdout Stubs.count_llm Stubs.count_tool Stubs.llm_calls Stubs.tool_runs].
  f_equal. f_equal.
  - unfold Stubs.count_tool, Stubs.count_llm. cbn [Stubs.llm_calls Stubs.tool_runs].
    f_equal; lia.
  - rewrite <- !app_assoc. reflexivity.
Qed.

End NeverAnswers.

(** C1.  The step cap of [run_research_agent] does not end the run.  With a
    model that never answers and a recursion limit above [max_steps], the
    progress loop counts node executions, not decision cycles: it breaks
    after ten of them, five requests of the model and five tool runs, and
    prints the warning.  The entry point then starts the graph again through
    [app.invoke], which the cap does not guard: the model is asked until the
    runtime's recursion limit ends that execution, [Nat.div2 (S limit)] more
    times and so more than [max_steps] times in all, and what the entry
    point prints last, before it returns, is the caught
    [GraphRecursionError] as ["Error getting final answer: ..."]. *)
Theorem step_cap_does_not_end_the_run :
  forall (limit : nat) (text query : string) (w : world Stubs.counters),
    max_steps < limit ->
    exists w1 w2,
      app_stream_for (SessionStubs.env_never_answers limit text) [HumanMessage query]
        report_step 1
        (mkWorld (ext w) (stdout w ++ [Line (nl +++ "Question: " +++ query); rule]))
      = (Ok (S max_steps), w1)
      /\ w1 = mkWorld
                (Stubs.mkCounters (Stubs.llm_calls (ext w) + 5)
                   (Stubs.tool_runs (ext w) + 5))
                (stdout w
                   ++ [Line (nl +++ "Question: " +++ query); rule]
                   ++ flat_map cycle_lines [1; 2; 3; 4; 5]
                   ++ [warning])
      /\ app_invoke (SessionStubs.env_never_answers limit text) [HumanMessage query] w1
         = (Raise (GraphRecursionError text), w2)
      /\ w2 = mkWorld
                (Stubs.mkCounters (Stubs.llm_calls (ext w) + 5 + Nat.div2 (S limit))
                   (Stubs.tool_runs (ext w) + 5 + Nat.div2 limit))
                (stdout w1 ++ repeat (search_line Stubs.wiki_call) (Nat.div2 limit))
      /\ run_research_agent (SessionStubs.env_never_answers limit text) query w
         = (Ok tt,
            mkWorld (ext w2)
              (stdout w2
                 ++ [rule; Line ("Error getting final answer: " +++ text); rule]))
      /\ max_steps < Stubs.llm_calls (ext w2) - Stubs.llm_calls (ext w).
Proof.
  intros limit text query w Hlimit.
  pose proof (never_answers_stream limit text (limit - 10) query
                (mkWorld (ext w) (stdout w ++ [Line (nl +++ "Question: " +++ query); rule])))
    as Hstream.
  replace (10 + (limit - 10)) with limit in Hstream by (unfold max_steps in Hlimit; lia).
  cbn [ext stdout] in Hstream. rewrite <- app_assoc in Hstream.
  pose proof (proj1 (never_answers_run_graph limit text limit)
                (reducer [] [HumanMessage query])) as Hinvoke.
  eexists. eexists.
  split; [exact Hstream |]. split; [reflexivity |].
  split; [apply Hinvoke |]. split; [reflexivity |]. split.
  - rewrite run_research_agent_eq.
    unfold bind at 1.
    match goal with
    | |- context [app_stream_for ?e ?i report_step 1 ?v] =>
        change (app_stream_for e i report_step 1 v)
          with (stream_for (SessionStubs.env_never_answers limit text) limit
                  (Node entry_point) (reducer [] [HumanMessage query]) report_step 1
                  (mkWorld (ext w)
                     (stdout w ++ [Line (nl +++ "Question: " +++ query); rule])))
    end.
    rewrite Hstream.
    rewrite (final_report_raise _ _ _ _ _ (Hinvoke _)).
    reflexivity.
  - cbn [ext Stubs.llm_calls]. unfold max_steps in *.
    assert (6 <= Nat.div2 (S limit)).
    { destruct limit as [|[|[|[|[|[|[|[|[|[|[|l]]]]]]]]]]]; try lia.
      change (Nat.div2 (S (S (S (S (S (S (S (S (S (S (S (S l)))))))))))))
        with (6 + Nat.div2 l).
      apply Nat.le_add_r. }
    lia.
Qed.


Lemma step_cap_does_not_end_the_run_witness :
  max_steps < 25
  /\ run_research_agent (SessionStubs.env_never_answers 25 (Stubs.limit_text 25)) "q"
       Stubs.start
     = (Ok tt,
        mkWorld (Stubs.mkCounters 18 17)
          ([Line (nl +++ "Question: q"); rule]
             ++ flat_map cycle_lines [1; 2; 3; 4; 5]
             ++ [warning]
             ++ repeat (Line "   Searching Wikipedia for: Alan Turing") 12
             ++ [rule;
                 Line "Error getting final answer: Recursion limit of 25 reached without hitting a stop condition. You can increase the limit by setting the `recursion_limit` config key.";
                 rule]))
  /\ exists w1 w2,
       app_stream_for (SessionStubs.env_never_answers 25 (Stubs.limit_text 25))
         [HumanMessage "q"] report_step 1
         (mkWorld (ext Stubs.start)
            (stdout Stubs.start ++ [Line (nl +++ "Question: " +++ "q"); rule]))
       = (Ok (S max_steps), w1)
       /\ w1 = mkWorld
                 (Stubs.mkCounters (Stubs.llm_calls (ext Stubs.start) + 5)
                    (Stubs.tool_runs (ext Stubs.start) + 5))
                 (stdout Stubs.start
                    ++ [Line (nl +++ "Question: " +++ "q"); rule]
                    ++ flat_map cycle_lines [1; 2; 3; 4; 5]
                    ++ [warning])
       /\ app_invoke (SessionStubs.env_never_answers 25 (Stubs.limit_text 25))
            [HumanMessage "q"] w1
          = (Raise (GraphRecursionError (Stubs.limit_text 25)), w2)
       /\ w2 = mkWorld
                 (Stubs.mkCounters (Stubs.llm_calls (ext Stubs.start) + 5 + Nat.div2 (S 25))
                    (Stubs.tool_runs (ext Stubs.start) + 5 + Nat.div2 25))
                 (stdout w1 ++ repeat (search_line Stubs.wiki_call) (Nat.div2 25))
       /\ run_research_agent (SessionStubs.env_never_answers 25 (Stubs.limit_text 25)) "q"
            Stubs.start
          = (Ok tt,
             mkWorld (ext w2)
               (stdout w2
                  ++ [rule;
                      Line ("Error getting final answer: " +++ Stubs.limit_text 25);
                      rule]))
       /\ max_steps < Stubs.llm_calls (ext w2) - Stubs.llm_calls (ext Stubs.start).
Proof.
  split; [vm_compute; lia | split; [vm_compute; reflexivity |]].
  apply (step_cap_does_not_end_the_run 25 (Stubs.limit_text 25) "q" Stubs.start).
  vm_compute. lia.
Defined.

(** ** Batches that name an unregistered tool *)

(** C7.  A successful tool in a batch that also names an unregistered tool.
    Alone in its batch, the call of the encyclopedia is answered with the
    output followed by ["\n\nSource: Wikipedia"], and so it is by the loop
    of [tool_node] in the mixed batch.  But at the unregistered name the
    early [return] drops that message: the prebuilt [ToolNode] invokes the
    encyclopedia a second time, and the result returned for the successful
    call, the one appended to the conversation and shown to the model,
    carries the bare output without attribution. *)
Theorem attribution_is_lost_behind_an_unregistered_name :
  tool_node SessionStubs.env_mixed_batch
    [HumanMessage "q"; AIMessage EmptyString [Stubs.wiki_call]]
    (mkWorld (Stubs.mkCounters 1 0) [])
  = (Ok [ToolMessage ("Alan Turing was a mathematician." +++ nl +++ nl +++ "Source: Wikipedia")
           "call_1"],
     mkWorld (Stubs.mkCounters 1 1) [Line "   Searching Wikipedia for: Alan Turing"])
  /\ tool_loop SessionStubs.env_mixed_batch
       [HumanMessage "q"; AIMessage EmptyString [Stubs.wiki_call; Stubs.unknown_call]]
       [Stubs.wiki_call] [] (mkWorld (Stubs.mkCounters 1 0) [])
     = (Ok [ToolMessage
              ("Alan Turing was a mathematician." +++ nl +++ nl +++ "Source: Wikipedia")
              "call_1"],
        mkWorld (Stubs.mkCounters 1 1) [Line "   Searching Wikipedia for: Alan Turing"])
  /\ tool_node SessionStubs.env_mixed_batch
       [HumanMessage "q"; AIMessage EmptyString [Stubs.wiki_call; Stubs.unknown_call]]
       (mkWorld (Stubs.mkCounters 1 0) [])
     = (Ok [ToolMessage "Alan Turing was a mathematician." "call_1";
            ToolMessage
              "Error: unknown_tool is not a valid tool, try one of [wikipedia, duckduckgo_search]."
              "call_3"],
        mkWorld (Stubs.mkCounters 1 2)
          [Line "   Searching Wikipedia for: Alan Turing";
           Line "   Using tool: unknown_tool"])
  /\ graph_step SessionStubs.env_mixed_batch N_tool_node
       [HumanMessage "q"; AIMessage EmptyString [Stubs.wiki_call; Stubs.unknown_call]]
       (mkWorld (Stubs.mkCounters 1 0) [])
     = (Ok (NodeChunk N_tool_node
              [ToolMessage "Alan Turing was a mathematician." "call_1";
               ToolMessage
                 "Error: unknown_tool is not a valid tool, try one of [wikipedia, duckduckgo_search]."
                 "call_3"],
            Node N_llm_agent_node,
            [HumanMessage "q";
             AIMessage EmptyString [Stubs.wiki_call; Stubs.unknown_call];
             ToolMessage "Alan Turing was a mathematician." "call_1";
             ToolMessage
               "Error: unknown_tool is not a valid tool, try one of [wikipedia, duckduckgo_search]."
               "call_3"]),
        mkWorld (Stubs.mkCounters 1 2)
          [Line "   Searching Wikipedia for: Alan Turing";
           Line "   Using tool: unknown_tool"]).
Proof.
  repeat split; vm_compute; reflexivity.
Qed.


(** ** The second execution *)

(** C8, as the program has it.  The verbose variant executes the graph
    twice from the same initial state.  When it completes, it has streamed
    one execution in the world behind its header, dumping the chunks, then
    started a second one through [app.invoke] in the world the stream left,
    and what it prints as the final response is the content of the last
    message of that second execution.  When the collaborators' answers
    depend on their input only, every execution from the initial state ends
    in that same final state, and the plain entry point, from any world,
    runs its stream, runs [app.invoke] once more to the same final state and
    prints the same content as its answer. *)
Theorem both_entry_points_print_same_answer :
  forall (W : Type) (env : Env W) (query : string) (wv wv' : world W),
    run_research_agent_verbose env query wv = (Ok tt, wv') ->
    exists (w1 w2 : world W) (final front : AgentState) (last_message : BaseMessage),
      app_stream_for env [HumanMessage query] dump_step tt
        (mkWorld (ext wv)
           (stdout wv
              ++ [Line (nl +++ "--- Running Research Agent for: '" +++ query
                        +++ "' ---" +++ nl)]))
      = (Ok tt, w1)
      /\ app_invoke env [HumanMessage query] w1 = (Ok final, w2)
      /\ final = front ++ [last_message]
      /\ wv' = mkWorld (ext w2)
                 (stdout w2
                    ++ [Line (nl +++ "--- FINAL RESPONSE ---");
                        Line (content last_message)])
      /\ (input_determined env ->
          (forall w0, fst (app_invoke env [HumanMessage query] w0) = Ok final)
          /\ forall w : world W,
               exists (k : nat) (u1 u2 : world W),
                 app_stream_for env [HumanMessage query] report_step 1
                   (mkWorld (ext w)
                      (stdout w ++ [Line (nl +++ "Question: " +++ query); rule]))
                 = (Ok k, u1)
                 /\ app_invoke env [HumanMessage query] u1 = (Ok final, u2)
                 /\ run_research_agent env query w
                    = (Ok tt,
                       mkWorld (ext u2)
                         (stdout u2
                            ++ [rule; Line ("Answer: " +++ content last_message); rule]))).
Proof.
  intros W env query wv wv' Hv.
  unfold run_research_agent_verbose in Hv.
  apply bind_inv_ok in Hv. destruct Hv as ([] & v1 & Hp1 & Hv).
  rewrite print_eq in Hp1. inversion Hp1; subst v1. clear Hp1.
  apply bind_inv_ok in Hv. destruct Hv as ([] & v2 & Hstream & Hv).
  apply bind_inv_ok in Hv. destruct Hv as (final & v3 & Hinvoke & Hv).
  apply bind_inv_ok in Hv. destruct Hv as ([] & v4 & Hp2 & Hv).
  rewrite print_eq in Hp2. inversion Hp2; subst v4. clear Hp2.
  apply bind_inv_ok in Hv. destruct Hv as (m & v5 & Hlast & Hv).
  apply last_item_ok_inv in Hlast. destruct Hlast as (-> & front & Hfinal).
  rewrite print_eq in Hv. inversion Hv; subst wv'. clear Hv.
  exists v2, v3, final, front, m.
  split; [exact Hstream |]. split; [exact Hinvoke |]. split; [exact Hfinal |].
  split; [cbn [ext stdout]; now rewrite <- app_assoc |].
  intros determined.
  assert (Hany : forall w0, fst (app_invoke env [HumanMessage query] w0) = Ok final).
  { intros w0. unfold app_invoke in *.
    rewrite (blind_run_graph env determined _ _ _ w0 v2).
    now rewrite Hinvoke. }
  split; [exact Hany |].
  intros w.
  destruct (stream_for_completes env determined report_step (report_step_ok (W := W))
              (recursion_limit env) (Node entry_point) (reducer [] [HumanMessage query])
              final 1
              (mkWorld (ext w) (stdout w ++ [Line (nl +++ "Question: " +++ query); rule]))
              v2 v3 Hinvoke) as (k & u1 & Hstream').
  pose proof (Hany u1) as Hu.
  destruct (app_invoke env [HumanMessage query] u1) as [r u2] eqn:Hinvoke'.
  simpl in Hu. subst r.
  exists k, u1, u2.
  split; [exact Hstream' |]. split; [exact Hinvoke' |].
  rewrite run_research_agent_eq.
  unfold app_stream_for in *.
  rewrite (bind_ok _ _ _ _ _ Hstream').
  rewrite Hfinal in Hinvoke'.
  apply (final_report_ok env _ _ _ _ _ Hinvoke').
Qed.

Lemma both_entry_points_print_same_answer_witness :
  run_research_agent_verbose Stubs.env_search_once "latest AI news" Stubs.start
  = (Ok tt,
     mkWorld (Stubs.mkCounters 4 2)
       [Line (nl +++ "--- Running Research Agent for: 'latest AI news' ---" +++ nl);
        ChunkDump (NodeChunk N_llm_agent_node [AIMessage EmptyString [Stubs.web_call]]);
        Line "---";
        Line "   Searching the web for: latest AI news";
        ChunkDump
          (NodeChunk N_tool_node
             [ToolMessage ("News." +++ nl +++ nl +++ "Source: Web Search (DuckDuckGo)")
                "call_2"]);
        Line "---";
        ChunkDump (NodeChunk N_llm_agent_node [AIMessage "Here is the latest AI news." []]);
        Line "---";
        Line "   Searching the web for: latest AI news";
        Line (nl +++ "--- FINAL RESPONSE ---");
        Line "Here is the latest AI news."])
  /\ exists (w1 w2 : world Stubs.counters) (final front : AgentState)
            (last_message : BaseMessage),
       app_stream_for Stubs.env_search_once [HumanMessage "latest AI news"] dump_step tt
         (mkWorld (ext Stubs.start)
            (stdout Stubs.start
               ++ [Line (nl +++ "--- Running Research Agent for: '" +++ "latest AI news"
                         +++ "' ---" +++ nl)]))
       = (Ok tt, w1)
       /\ app_invoke Stubs.env_search_once [HumanMessage "latest AI news"] w1
          = (Ok final, w2)
       /\ final = front ++ [last_message]
       /\ mkWorld (Stubs.mkCounters 4 2)
            [Line (nl +++ "--- Running Research Agent for: 'latest AI news' ---" +++ nl);
             ChunkDump (NodeChunk N_llm_agent_node [AIMessage EmptyString [Stubs.web_call]]);
             Line "---";
             Line "   Searching the web for: latest AI news";
             ChunkDump
               (NodeChunk N_tool_node
                  [ToolMessage ("News." +++ nl +++ nl +++ "Source: Web Search (DuckDuckGo)")
                     "call_2"]);
             Line "---";
             ChunkDump
               (NodeChunk N_llm_agent_node [AIMessage "Here is the latest AI news." []]);
             Line "---";
             Line "   Searching the web for: latest AI news";
             Line (nl +++ "--- FINAL RESPONSE ---");
             Line "Here is the latest AI news."]
          = mkWorld (ext w2)
              (stdout w2
                 ++ [Line (nl +++ "--- FINAL RESPONSE ---");
                     Line (content last_message)])
       /\ (input_determined Stubs.env_search_once ->
           (forall w0,
               fst (app_invoke Stubs.env_search_once [HumanMessage "latest AI news"] w0)
               = Ok final)
           /\ forall w : world Stubs.counters,
                exists (k : nat) (u1 u2 : world Stubs.counters),
                  app_stream_for Stubs.env_search_once [HumanMessage "latest AI news"]
                    report_step 1
                    (mkWorld (ext w)
                       (stdout w
                          ++ [Line (nl +++ "Question: " +++ "latest AI news"); rule]))
                  = (Ok k, u1)
                  /\ app_invoke Stubs.env_search_once [HumanMessage "latest AI news"] u1
                     = (Ok final, u2)
                  /\ run_research_agent Stubs.env_search_once "latest AI news" w
                     = (Ok tt,
                        mkWorld (ext u2)
                          (stdout u2
                             ++ [rule; Line ("Answer: " +++ content last_message); rule]))).
Proof.
  split; [vm_compute; reflexivity |].
  apply (both_entry_points_print_same_answer _ Stubs.env_search_once "latest AI news"
           Stubs.start).
  vm_compute. reflexivity.
Defined.

(** C8, as the claim has it, fails.  With a model whose answer tells how
    often it was called before, the verbose variant streams an execution
    that ends in ["answer 0"] and then reports ["answer 1"], the answer of
    the second execution it starts with [app.invoke]; the plain entry point
    does the same.  And with the model that never answers, the verbose
    variant ends in the runtime's [GraphRecursionError], where the plain
    entry point returns. *)
Lemma verbose_reports_a_second_execution :
  run_research_agent_verbose Stubs.env_numbered "q" Stubs.start
  = (Ok tt,
     mkWorld (Stubs.mkCounters 2 0)
       [Line (nl +++ "--- Running Research Agent for: 'q' ---" +++ nl);
        ChunkDump (NodeChunk N_llm_agent_node [AIMessage "answer 0" []]);
        Line "---";
        Line (nl +++ "--- FINAL RESPONSE ---");
        Line "answer 1"])
  /\ "answer 0" <> "answer 1"
  /\ run_research_agent Stubs.env_numbered "q" Stubs.start
     = (Ok tt,
        mkWorld (Stubs.mkCounters 2 0)
          [Line (nl +++ "Question: q");
           rule;
           Line "Step 1: LLM is analyzing your question...";
           rule;
           Line "Answer: answer 1";
           rule])
  /\ fst (run_research_agent_verbose Stubs.env_always_tool "q" Stubs.start)
     = Raise (GraphRecursionError (recursion_error Stubs.env_always_tool))
  /\ fst (run_research_agent Stubs.env_always_tool "q" Stubs.start) = Ok tt.
Proof.
  repeat split; try (vm_compute; reflexivity); discriminate.
Qed.
